(** * SmsBridge: room classification and virtual identities

    A shallow embedding of [src/SmsBridge.js] (class [SmsBridge]) and the
    properties of its room classifier ([_processRoom]), of its admin-room
    directory ([_adminRooms], [getOrCreateAdminRoom]), of the bridged-user
    predicate ([isBridgeUser]) and of the event entry point ([_onEvent]).

    JavaScript values are modelled as far as the code inspects them:
    - a string is a [string] (a sequence of code units; [startsWith] and
      [endsWith] only compare units, so the unit width does not matter);
    - [null]/[undefined] next to a string is an [option string] or, where
      the code calls a method on the value, a [JsValue];
    - a plain object used as a dictionary is a [JsObj.t]: its own
      properties in creation order, enumerated the way [Object.keys] (and
      lodash's [_.keys] on a plain object) enumerates them. The object's
      prototype is not modelled: a read agrees with the code where the
      name is an own property or is not one of [JsObj.prototypeNames],
      a write where the name is not ["__proto__"]; the statements below
      that depend on either say so (room and user identities start with
      ["!"] and ["@"]);
    - a promise is the [outcome] it settles to, and the transport's
      answers are passed to the continuation that consumes them;
    - calls made to the transport are appended to a log kept in the state
      (fetching members, creating a room, sending a text, joining).

    Logging through [LogService] has no effect on the bridge and is left
    out. *)

From Stdlib Require Import Bool Arith NArith ZArith Lia List Permutation.
From Stdlib Require Import Ascii String.
Import ListNotations.
Open Scope string_scope.
Open Scope list_scope.

(** ** JavaScript strings *)

Module JsString.

(** [s.startsWith(search)] *)
Fixpoint startsWith (s search : string) {struct search} : bool :=
  match search with
  | EmptyString => true
  | String c search' =>
      match s with
      | EmptyString => false
      | String d s' => Ascii.eqb d c && startsWith s' search'
      end
  end.

(** [s.endsWith(search)]: the last [search.length] units of [s] are
    compared with [search]; false when [search] is longer than [s]. *)
Definition endsWith (s search : string) : bool :=
  let len := String.length s in
  let searchLength := String.length search in
  if (len <? searchLength)%nat then false
  else String.eqb (substring (len - searchLength) searchLength s) search.

End JsString.

(** ** Plain objects used as dictionaries *)

Module JsObj.

(** Own properties, in the order they were created. *)
Definition t (V : Type) : Type := list (string * V).

Definition empty {V} : t V := [].

Section Ops.
Context {V : Type}.

(** [o[k]] as far as own properties go: [None] stands for [undefined].
    Where [o] has no own property [k] and [k] is one of [prototypeNames]
    below, the code reads the inherited value instead. *)
Fixpoint get (o : t V) (k : string) : option V :=
  match o with
  | [] => None
  | (k', v) :: o' => if String.eqb k' k then Some v else get o' k
  end.

(** [o[k] = v]: an existing property keeps its place, a new one is
    created last. For [k = "__proto__"] the code replaces the prototype
    of [o] and creates no property. *)
Fixpoint set (o : t V) (k : string) (v : V) : t V :=
  match o with
  | [] => [(k, v)]
  | (k', v') :: o' =>
      if String.eqb k' k then (k', v) :: o' else (k', v') :: set o' k v
  end.

Definition names (o : t V) : list string := map fst o.

(** No property name occurs twice: holds of every object. *)
Definition wf (o : t V) : Prop := NoDup (names o).
End Ops.

(** *** Enumeration order

    [Object.keys] lists the array-index names first, in ascending
    numeric order, and then the other names in creation order. An array
    index is the canonical decimal form of an integer below [2^32 - 1]. *)

Definition isDigit (c : ascii) : bool :=
  (48 <=? nat_of_ascii c)%nat && (nat_of_ascii c <=? 57)%nat.

Fixpoint digitsValue (s : string) (acc : N) : option N :=
  match s with
  | EmptyString => Some acc
  | String c s' =>
      if isDigit c
      then digitsValue s' (acc * 10 + (N_of_ascii c - 48))%N
      else None
  end.

Definition arrayIndex (k : string) : option N :=
  match k with
  | EmptyString => None
  | String c rest =>
      if Ascii.eqb c "0"%char && negb (String.eqb rest "") then None
      else match digitsValue k 0 with
           | Some n => if (n <? 2 ^ 32 - 1)%N then Some n else None
           | None => None
           end
  end.

Fixpoint insertIndex (n : N) (k : string) (l : list (N * string)) : list (N * string) :=
  match l with
  | [] => [(n, k)]
  | (m, k') :: l' =>
      if (n <=? m)%N then (n, k) :: l else (m, k') :: insertIndex n k l'
  end.

Fixpoint indexNames (ks : list string) : list (N * string) :=
  match ks with
  | [] => []
  | k :: ks' =>
      match arrayIndex k with
      | Some n => insertIndex n k (indexNames ks')
      | None => indexNames ks'
      end
  end.

Fixpoint otherNames (ks : list string) : list string :=
  match ks with
  | [] => []
  | k :: ks' =>
      match arrayIndex k with
      | Some _ => otherNames ks'
      | None => k :: otherNames ks'
      end
  end.

Definition orderNames (ks : list string) : list string :=
  map snd (indexNames ks) ++ otherNames ks.

(** [_.keys(o)] *)
Definition keys {V} (o : t V) : list string := orderNames (names o).

(** The names every plain object inherits from [Object.prototype]. *)
Definition prototypeNames : list string :=
  ["constructor"; "__defineGetter__"; "__defineSetter__"; "hasOwnProperty";
   "__lookupGetter__"; "__lookupSetter__"; "isPrototypeOf";
   "propertyIsEnumerable"; "toString"; "valueOf"; "__proto__";
   "toLocaleString"].

End JsObj.

(** ** Values, exceptions and promises *)

(** The values that can stand where the code expects a string. *)
Inductive JsValue : Type :=
| JsUndefined
| JsNull
| JsStr (s : string).

Inductive JsError : Type :=
| TypeError                       (* member access or call on [undefined]/[null] *)
| TransportError (msg : string)   (* a rejected transport call *)
| Error (msg : string).           (* [new Error(msg)] *)

(** How synchronous code ends. *)
Inductive completion (A : Type) : Type :=
| Normal (a : A)
| Throw (e : JsError).
Arguments Normal {A} a.
Arguments Throw {A} e.

(** What a promise settles to. *)
Inductive outcome (A : Type) : Type :=
| Resolved (a : A)
| Rejected (e : JsError).
Arguments Resolved {A} a.
Arguments Rejected {A} e.

(** A string, [null] or [undefined] in a boolean position. *)
Definition truthy (v : option string) : bool :=
  match v with
  | Some s => negb (String.eqb s "")
  | None => false
  end.

(** [a || b] *)
Definition js_or (a b : option string) : option string :=
  if truthy a then a else b.

(** [v === s] for a string [s] *)
Definition strictEq (v : JsValue) (s : string) : bool :=
  match v with
  | JsStr t => String.eqb t s
  | _ => false
  end.

(** [s == v] for a string [s]: [undefined] and [null] equal no string. *)
Definition looseEq (s : string) (v : JsValue) : bool :=
  match v with
  | JsStr t => String.eqb s t
  | _ => false
  end.

Fixpoint indexOfFrom (l : list string) (x : string) (i : Z) : Z :=
  match l with
  | [] => (-1)%Z
  | y :: l' => if String.eqb y x then i else indexOfFrom l' x (i + 1)%Z
  end.

(** [l.indexOf(x)] *)
Definition indexOf (l : list string) (x : string) : Z := indexOfFrom l x 0%Z.

(** ** The bridge *)

(** What the bridge library and the configuration fix for a run. *)
Record Config : Type := {
  botUserId : string;          (* [this._bridge.getBot().getUserId()] *)
  homeserver_domain : string   (* [this._config.homeserver.domain] *)
}.

Module AdminRoom.
(** Modelled from the spec: the class [AdminRoom] ([./matrix/AdminRoom])
    is not among the sources. An AdminSession is
    [{ roomId: RoomIdentity, owner: UserIdentity }]; the constructor is
    called as [new AdminRoom(roomId, bridge, owner)] and the bridge reads
    [.owner] back. The owner argument is a string or [null]. *)
Record t : Type := make { roomId : string; owner : option string }.
End AdminRoom.

(** The value of a joined-members entry; the bridge only uses the keys. *)
Record MemberProfile : Type := {
  display_name : option string;
  avatar_url : option string
}.

Definition Members : Type := JsObj.t MemberProfile.

Record CreateRoomOptions : Type := {
  createAsClient : bool;
  invite : list string;
  is_direct : bool;
  preset : string;
  visibility : string;
  guest_access : string
}.

(** Calls made to the transport, in the order they are made. *)
Inductive TransportCall : Type :=
| GetJoinedMembers (roomId : string)
| CreateRoom (opts : CreateRoomOptions)
| SendText (roomId text : string)
| Join (userId : JsValue) (roomId : string).

Record SmsBridge : Type := {
  _adminRooms : JsObj.t AdminRoom.t;     (* { roomId: AdminRoom } *)
  transportLog : list TransportCall
}.

(** The bridge as the constructor leaves it. *)
Definition newBridge : SmsBridge :=
  {| _adminRooms := JsObj.empty; transportLog := [] |}.

Definition logCall (c : TransportCall) (st : SmsBridge) : SmsBridge :=
  {| _adminRooms := _adminRooms st; transportLog := transportLog st ++ [c] |}.

Definition setAdminRoom (roomId : string) (room : AdminRoom.t) (st : SmsBridge) : SmsBridge :=
  {| _adminRooms := JsObj.set (_adminRooms st) roomId room;
     transportLog := transportLog st |}.

(** *** Virtual identities *)

(** [this._bridge.getIntentFromLocalpart(localpart)]: the bridge library
    hands out the intent of the user ["@" + localpart + ":" + domain] of
    the domain the bridge was constructed with; an intent is represented
    by that user identity. *)
Definition getIntentFromLocalpart (cfg : Config) (localpart : string) : string :=
  ("@" ++ localpart ++ ":" ++ homeserver_domain cfg)%string.

Definition getSmsIntent (cfg : Config) (phoneNumber : string) : string :=
  getIntentFromLocalpart cfg ("_sms_" ++ phoneNumber)%string.

(** The left operand decides for the bot; otherwise the two method calls
    need [handle] to be a string. *)
Definition isBridgeUser (cfg : Config) (handle : JsValue) : completion bool :=
  if looseEq (botUserId cfg) handle then Normal true
  else match handle with
       | JsStr h =>
           Normal (JsString.startsWith h "@_sms_"
                   && JsString.endsWith h (":" ++ homeserver_domain cfg)%string)
       | JsUndefined | JsNull => Throw TypeError
       end.

(** *** Room classification *)

Definition welcomeText : string :=
  "Hello! This room can be used to manage various aspects of the bridge. Although this currently doesn't do anything, it will be more active in the future.".

(** The callback of [_processRoom], run on the joined members. *)
Definition processRoomMembers (cfg : Config) (roomId : string)
    (adminRoomOwner : option string) (newRoom : bool)
    (members : Members) (st : SmsBridge) : SmsBridge :=
  let roomMemberIds := JsObj.keys members in
  let botIdx := indexOf roomMemberIds (botUserId cfg) in
  if (List.length roomMemberIds =? 2)%nat || truthy adminRoomOwner then
    let otherUserId := nth_error roomMemberIds (if (botIdx =? 0)%Z then 1 else 0) in
    let st1 :=
      setAdminRoom roomId (AdminRoom.make roomId (js_or otherUserId adminRoomOwner)) st in
    if newRoom then logCall (SendText roomId welcomeText) st1 else st1
  else st. (* else it is just a regular room *)

(** [_processRoom(roomId, adminRoomOwner = null, newRoom = false)], given
    what [getJoinedMembers(roomId)] settles to. *)
Definition _processRoom (cfg : Config) (roomId : string)
    (adminRoomOwner : option string) (newRoom : bool)
    (joined : outcome Members) (st : SmsBridge) : outcome unit * SmsBridge :=
  let st1 := logCall (GetJoinedMembers roomId) st in
  match joined with
  | Resolved members =>
      (Resolved tt, processRoomMembers cfg roomId adminRoomOwner newRoom members st1)
  | Rejected e => (Rejected e, st1)
  end.

(** *** The admin-room directory *)

(** The loop of [getOrCreateAdminRoom] over [roomIds]. *)
Fixpoint scanOwner (rooms : JsObj.t AdminRoom.t) (roomIds : list string)
    (userId : string) : option AdminRoom.t :=
  match roomIds with
  | [] => None
  | roomId :: rest =>
      match JsObj.get rooms roomId with
      | None => scanOwner rooms rest userId
      | Some room =>
          match AdminRoom.owner room with
          | Some o => if String.eqb o userId then Some room
                      else scanOwner rooms rest userId
          | None => scanOwner rooms rest userId
          end
      end
  end.

Definition findByOwner (st : SmsBridge) (userId : string) : option AdminRoom.t :=
  scanOwner (_adminRooms st) (JsObj.keys (_adminRooms st)) userId.

Definition adminRoomOptions (userId : string) : CreateRoomOptions :=
  {| createAsClient := false;
     invite := [userId];
     is_direct := true;
     preset := "trusted_private_chat";
     visibility := "private";
     guest_access := "can_join" |}.

(** [getOrCreateAdminRoom(userId)], given what [createRoom] and then
    [getJoinedMembers] settle to, when nothing else runs in between. *)
Definition getOrCreateAdminRoom (cfg : Config) (userId : string)
    (created : outcome string) (joined : outcome Members) (st : SmsBridge)
  : outcome AdminRoom.t * SmsBridge :=
  match findByOwner st userId with
  | Some room => (Resolved room, st)
  | None =>
      let st1 := logCall (CreateRoom (adminRoomOptions userId)) st in
      match created with
      | Rejected e => (Rejected e, st1)
      | Resolved newRoomId =>
          match _processRoom cfg newRoomId (Some userId) false joined st1 with
          | (Rejected e, st2) => (Rejected e, st2)
          | (Resolved _, st2) =>
              match JsObj.get (_adminRooms st2) newRoomId with
              | Some room => (Resolved room, st2)
              | None =>
                  (Rejected (Error ("Could not create admin room for " ++ userId)%string),
                   st2)
              end
          end
      end
  end.

(** The same function turn by turn. The event loop runs other code
    between the call, the callback on the created room and the callback on
    its joined members; each turn below runs without interruption. *)

Inductive CallTurn : Type :=
| Found (room : AdminRoom.t)   (* [Promise.resolve(room)] *)
| CreatingRoom.                (* [createRoom] is under way *)

Definition getOrCreateAdminRoom_call (userId : string) (st : SmsBridge)
  : CallTurn * SmsBridge :=
  match findByOwner st userId with
  | Some room => (Found room, st)
  | None => (CreatingRoom, logCall (CreateRoom (adminRoomOptions userId)) st)
  end.

(** The room exists: [_processRoom] asks for its members. *)
Definition getOrCreateAdminRoom_created (newRoomId : string) (st : SmsBridge)
  : SmsBridge :=
  logCall (GetJoinedMembers newRoomId) st.

(** The members arrived: the room is classified and read back. *)
Definition getOrCreateAdminRoom_joined (cfg : Config) (userId newRoomId : string)
    (members : Members) (st : SmsBridge) : outcome AdminRoom.t * SmsBridge :=
  let st1 := processRoomMembers cfg newRoomId (Some userId) false members st in
  match JsObj.get (_adminRooms st1) newRoomId with
  | Some room => (Resolved room, st1)
  | None =>
      (Rejected (Error ("Could not create admin room for " ++ userId)%string), st1)
  end.

(** *** The event entry point *)

Record EventContent : Type := { membership : JsValue }.

Record MatrixEvent : Type := {
  type : string;
  content : option EventContent;   (* [None]: the event has no content *)
  state_key : JsValue;
  room_id : string;
  sender : string
}.

(** What [_onEvent] returns to the bridge library. *)
Inductive Handling : Type :=
| JoinThenProcessRoom (userId : JsValue) (roomId : string)
    (* the promise of [join(room_id).then(() => _processRoom(room_id, null, true))] *)
| ProcessMessage       (* the result of [_processMessage(event)] *)
| NothingToDo.         (* [Promise.resolve()] *)

Section EventRouter.

Variable cfg : Config.

(** [AdminRoom.prototype.handleEvent] belongs to the class that is not
    among the sources; it may do anything to the bridge it was
    constructed with, and it may throw. *)
Variable handleEvent : AdminRoom.t -> MatrixEvent -> SmsBridge -> completion SmsBridge.

Definition _tryProcessAdminEvent (event : MatrixEvent) (st : SmsBridge)
  : completion SmsBridge :=
  let roomId := room_id event in
  match JsObj.get (_adminRooms st) roomId with
  | Some room => handleEvent room event st
  | None => Normal st
  end.

(** The [else if] and the default [return]. *)
Definition onOtherEvent (event : MatrixEvent) (st : SmsBridge)
  : completion (Handling * SmsBridge) :=
  if String.eqb (type event) "m.room.message"
     && negb (String.eqb (sender event) (botUserId cfg))
  then Normal (ProcessMessage, st)
  else Normal (NothingToDo, st).

Definition _onEvent (event : MatrixEvent) (st : SmsBridge)
  : completion (Handling * SmsBridge) :=
  match _tryProcessAdminEvent event st with
  | Throw e => Throw e
  | Normal st1 =>
      if String.eqb (type event) "m.room.member" then
        match content event with
        | None => Throw TypeError   (* [event.content.membership] *)
        | Some c =>
            if strictEq (membership c) "invite" then
              match isBridgeUser cfg (state_key event) with
              | Throw e => Throw e
              | Normal true =>
                  Normal (JoinThenProcessRoom (state_key event) (room_id event),
                          logCall (Join (state_key event) (room_id event)) st1)
              | Normal false => onOtherEvent event st1
              end
            else onOtherEvent event st1
        end
      else onOtherEvent event st1
  end.

(** The promise returned for an invite, given what [join] and then
    [getJoinedMembers] settle to. *)
Definition joinThenProcessRoom (roomId : string) (joinedRoom : outcome unit)
    (joined : outcome Members) (st : SmsBridge) : outcome unit * SmsBridge :=
  match joinedRoom with
  | Rejected e => (Rejected e, st)
  | Resolved _ => _processRoom cfg roomId None true joined st
  end.

End EventRouter.

(** ** Observations on a run *)

(** The test of [_processRoom]'s callback and the owner it passes to the
    constructor. *)
Definition registersAdminRoom (roomMemberIds : list string)
    (adminRoomOwner : option string) : bool :=
  (List.length roomMemberIds =? 2)%nat || truthy adminRoomOwner.

Definition registeredOwner (cfg : Config) (roomMemberIds : list string)
    (adminRoomOwner : option string) : option string :=
  js_or (nth_error roomMemberIds
           (if (indexOf roomMemberIds (botUserId cfg) =? 0)%Z then 1 else 0))
        adminRoomOwner.

(** The naming convention in words: the name of a virtual user is
    ["@_sms_"], then anything, then [":"] and the configured domain. It
    is stated apart from the code to be compared with the test made by
    [isBridgeUser]. *)
Definition hasSmsUserName (cfg : Config) (h : string) : Prop :=
  exists x, h = ("@_sms_" ++ x ++ ":" ++ homeserver_domain cfg)%string.

Definition isSendText (c : TransportCall) : bool :=
  match c with SendText _ _ => true | _ => false end.

Definition isCreateRoom (c : TransportCall) : bool :=
  match c with CreateRoom _ => true | _ => false end.

(** How many texts the bridge has sent, how many rooms it has asked for. *)
Definition textsSent (st : SmsBridge) : nat :=
  List.length (filter isSendText (transportLog st)).

Definition roomsCreated (st : SmsBridge) : nat :=
  List.length (filter isCreateRoom (transportLog st)).

Definition ownedBy (userId : string) (entry : string * AdminRoom.t) : bool :=
  match AdminRoom.owner (snd entry) with
  | Some o => String.eqb o userId
  | None => false
  end.

(** The admin rooms of the directory that belong to [userId]. *)
Definition adminRoomsOf (st : SmsBridge) (userId : string) : list (string * AdminRoom.t) :=
  filter (ownedBy userId) (_adminRooms st).


(** ** A homeserver to run the bridge on *)

Module Scenario.

Definition cfg : Config :=
  {| botUserId := "@smsbot:example.org"; homeserver_domain := "example.org" |}.

Definition alice : string := "@alice:example.org".
Definition bob : string := "@bob:example.org".
Definition carol : string := "@carol:example.org".
Definition sms : string := "@_sms_15551234567:example.org".

Definition noProfile : MemberProfile :=
  {| display_name := None; avatar_url := None |}.

(** The answer of [getJoinedMembers] for a room joined by [ids], in
    that order. *)
Definition joinedBy (ids : list string) : Members :=
  map (fun id => (id, noProfile)) ids.

(** An admin-room session object that handles every event quietly. *)
Definition quietHandleEvent (_ : AdminRoom.t) (_ : MatrixEvent) (st : SmsBridge)
  : completion SmsBridge := Normal st.

Definition invite (invitee : JsValue) (roomId : string) : MatrixEvent :=
  {| type := "m.room.member";
     content := Some {| membership := JsStr "invite" |};
     state_key := invitee;
     room_id := roomId;
     sender := alice |}.

(** A membership event that lost its content. *)
Definition memberEventWithoutContent : MatrixEvent :=
  {| type := "m.room.member";
     content := None;
     state_key := JsStr sms;
     room_id := "!dm:example.org";
     sender := alice |}.

(** The startup scan met Alice's room with the bot. *)
Definition afterAliceRoom : SmsBridge :=
  snd (_processRoom cfg "!a:example.org" None false
         (Resolved (joinedBy [botUserId cfg; alice])) newBridge).

(** Then it met a second room joined by the bot and Alice. *)
Definition aliceAndBot : Members := joinedBy [botUserId cfg; alice].
Definition afterSecondAliceRoom : SmsBridge :=
  snd (_processRoom cfg "!b:example.org" None false (Resolved aliceAndBot)
         afterAliceRoom).

(** [_processRoom("!r:example.org", bob)] on a room joined by the bot
    and Alice. *)
Definition forcedForBob : SmsBridge :=
  snd (_processRoom cfg "!r:example.org" (Some bob) false
         (Resolved aliceAndBot) newBridge).

(** Alice invited the virtual user of a phone number to a direct chat
    and the virtual user joined: the bot is not in the room. *)
Definition aliceAndSms : Members := joinedBy [alice; sms].
Definition afterInviteOfSms : outcome unit * SmsBridge :=
  _processRoom cfg "!dm:example.org" None true (Resolved aliceAndSms) newBridge.

(** Two calls of [getOrCreateAdminRoom(alice)] made in the same turn,
    before either [createRoom] has answered; the transport then creates
    ["!r1:example.org"] for the first and ["!r2:example.org"] for the
    second, each joined by the bot alone. *)
Definition firstCall := getOrCreateAdminRoom_call alice newBridge.
Definition secondCall := getOrCreateAdminRoom_call alice (snd firstCall).
Definition firstSettled :=
  getOrCreateAdminRoom_joined cfg alice "!r1:example.org"
    (joinedBy [botUserId cfg])
    (getOrCreateAdminRoom_created "!r1:example.org" (snd secondCall)).
Definition secondSettled :=
  getOrCreateAdminRoom_joined cfg alice "!r2:example.org"
    (joinedBy [botUserId cfg])
    (getOrCreateAdminRoom_created "!r2:example.org" (snd firstSettled)).

End Scenario.

(** ** The startup scan *)

(** The callback of [_bridgeKnownRooms] on the joined rooms: the loop calls
    [_processRoom(roomId)] for each room, and each call asks for the
    members of its room before the loop goes on. *)
Definition _bridgeKnownRooms_joinedRooms (rooms : list string) (st : SmsBridge)
  : SmsBridge :=
  fold_left (fun s roomId => logCall (GetJoinedMembers roomId) s) rooms st.

(** The callbacks of those [_processRoom] calls, run as the answers come
    in: [answers] lists the rooms whose members were fetched, in order of
    arrival. A request that fails runs no callback. *)
Definition processRoomAnswers (cfg : Config) (answers : list (string * Members))
    (st : SmsBridge) : SmsBridge :=
  fold_left (fun s answer => processRoomMembers cfg (fst answer) None false (snd answer) s)
            answers st.

(** [_bridgeKnownRooms()], given what [getJoinedRooms()] settles to. The
    request for the joined rooms itself is not among the calls the log
    records. *)
Definition _bridgeKnownRooms (cfg : Config) (joinedRooms : outcome (list string))
    (answers : list (string * Members)) (st : SmsBridge) : SmsBridge :=
  match joinedRooms with
  | Resolved rooms => processRoomAnswers cfg answers (_bridgeKnownRooms_joinedRooms rooms st)
  | Rejected _ => st
  end.

(** ** The bot's profile *)

Module Appearance.
(** [this._config.smsBot.appearance] *)
Record t : Type := make { displayName : option string; avatarUrl : option string }.
End Appearance.

Module BotProfile.
(** Modelled from the spec: [SmsStore] ([./storage/SmsStore]) is not among
    the sources. [getAccountData(key)] answers with a JSON-like record, an
    empty one when nothing was saved; this is the record kept under the
    key ["bridge"], of which the bridge reads and writes [avatarUrl]. The
    uploader of [./utils] is not among the sources either: its answer is
    an argument of [_updateBotProfile]. *)
Record t : Type := make { avatarUrl : option string }.
End BotProfile.

(** [v || d] for a string [d] *)
Definition orDefault (v : option string) (d : string) : string :=
  match v with
  | Some s => if String.eqb s "" then d else s
  | None => d
  end.

Definition desiredDisplayName (app : Appearance.t) : string :=
  orDefault (Appearance.displayName app) "SMS Bridge".

Definition desiredAvatarUrl (app : Appearance.t) : string :=
  orDefault (Appearance.avatarUrl app)
    "https://t2bot.io/_matrix/media/v1/download/t2l.io/SOZlqpJCUoecxNFZGGnDEhEy".

(** The calls [_updateBotProfile] makes to the store, to the uploader and
    to the bot's intent. *)
Inductive ProfileCall : Type :=
| GetAccountData (key : string)
| UploadContentFromUrl (url : string)
| SetAvatarUrl (mxcUrl : string)
| SetAccountData (key : string) (data : BotProfile.t)
| GetProfileInfo (userId field : string)
| SetDisplayName (name : string).

(** [!avatarUrl || avatarUrl !== desiredAvatarUrl] *)
Definition avatarOutdated (app : Appearance.t) (botProfile : BotProfile.t) : bool :=
  negb (truthy (BotProfile.avatarUrl botProfile))
  || negb (match BotProfile.avatarUrl botProfile with
           | Some u => String.eqb u (desiredAvatarUrl app)
           | None => false
           end).

(** The callback on the account data. *)
Definition _updateBotProfile_accountData (cfg : Config) (app : Appearance.t)
    (botProfile : BotProfile.t) : list ProfileCall :=
  (if avatarOutdated app botProfile
   then [UploadContentFromUrl (desiredAvatarUrl app)] else [])
  ++ [GetProfileInfo (botUserId cfg) "displayname"].

(** The callback on the uploaded avatar. *)
Definition _updateBotProfile_uploaded (app : Appearance.t) (mxcUrl : string)
  : list ProfileCall :=
  [SetAvatarUrl mxcUrl;
   SetAccountData "bridge" (BotProfile.make (Some (desiredAvatarUrl app)))].

(** The callback on the bot's profile: [profile.displayname != desiredDisplayName]. *)
Definition _updateBotProfile_profile (app : Appearance.t) (displayname : JsValue)
  : list ProfileCall :=
  if negb (looseEq (desiredDisplayName app) displayname)
  then [SetDisplayName (desiredDisplayName app)] else [].

(** [_updateBotProfile()], given what the store, the uploader and the
    profile request settle to. The last two callbacks may run in either
    order; they are listed upload first. A failed request runs no
    callback. *)
Definition _updateBotProfile (cfg : Config) (app : Appearance.t)
    (accountData : outcome BotProfile.t) (uploaded : outcome string)
    (profile : outcome JsValue) : list ProfileCall :=
  GetAccountData "bridge" ::
  match accountData with
  | Rejected _ => []
  | Resolved botProfile =>
      _updateBotProfile_accountData cfg app botProfile
      ++ (if avatarOutdated app botProfile
          then match uploaded with
               | Resolved mxcUrl => _updateBotProfile_uploaded app mxcUrl
               | Rejected _ => []
               end
          else [])
      ++ match profile with
         | Resolved displayname => _updateBotProfile_profile app displayname
         | Rejected _ => []
         end
  end.

Definition changesAvatar (c : ProfileCall) : bool :=
  match c with
  | UploadContentFromUrl _ | SetAvatarUrl _ | SetAccountData _ _ => true
  | _ => false
  end.

(** ** States of a running bridge *)

(** Every entry of the directory is the admin room of the room it is
    filed under. *)
Definition directoryConsistent (st : SmsBridge) : Prop :=
  forall k room, JsObj.get (_adminRooms st) k = Some room -> AdminRoom.roomId room = k.

(** The bridges that the constructor, [_processRoom] and
    [getOrCreateAdminRoom] can produce, whatever the transport answers. *)
Inductive reachable (cfg : Config) : SmsBridge -> Prop :=
| reach_new : reachable cfg newBridge
| reach_processRoom roomId adminRoomOwner newRoom joined st :
    reachable cfg st ->
    reachable cfg (snd (_processRoom cfg roomId adminRoomOwner newRoom joined st))
| reach_getOrCreateAdminRoom userId created joined st :
    reachable cfg st ->
    reachable cfg (snd (getOrCreateAdminRoom cfg userId created joined st))
| reach_bridgeKnownRooms joinedRooms answers st :
    reachable cfg st ->
    reachable cfg (_bridgeKnownRooms cfg joinedRooms answers st).

(** ** More of the homeserver *)

Module Startup.

Definition bobAndBot : Members :=
  Scenario.joinedBy [Scenario.bob; botUserId Scenario.cfg].

Definition group : Members :=
  Scenario.joinedBy [botUserId Scenario.cfg; Scenario.alice; Scenario.bob].

(** The bot is in three rooms; the answers for the last two come in
    first. *)
Definition rooms : list string :=
  ["!a:example.org"; "!b:example.org"; "!g:example.org"].

Definition answers : list (string * Members) :=
  [("!g:example.org", group); ("!b:example.org", bobAndBot);
   ("!a:example.org", Scenario.aliceAndBot)].

Definition answersInOrder : list (string * Members) :=
  [("!a:example.org", Scenario.aliceAndBot); ("!b:example.org", bobAndBot);
   ("!g:example.org", group)].

Definition scanned : SmsBridge :=
  _bridgeKnownRooms Scenario.cfg (Resolved rooms) answers newBridge.

Definition appearance : Appearance.t :=
  Appearance.make (Some "") (Some "mxc-source://avatar").

Definition message (from : string) : MatrixEvent :=
  {| type := "m.room.message";
     content := None;
     state_key := JsUndefined;
     room_id := "!dm:example.org";
     sender := from |}.

End Startup.

(** * Properties *)

(** ** Strings *)

Module JsStringFacts.
Import JsString.

Lemma length_append (a b : string) :
  String.length (a ++ b)%string = String.length a + String.length b.
Proof. induction a as [|c a IH]; simpl; [reflexivity | now rewrite IH]. Qed.

Lemma substring_all (t : string) : substring 0 (String.length t) t = t.
Proof. induction t as [|c t IH]; simpl; [reflexivity | now rewrite IH]. Qed.

Lemma substring_skip (a t : string) :
  substring (String.length a) (String.length t) (a ++ t)%string = t.
Proof. induction a as [|c a IH]; simpl; [apply substring_all | exact IH]. Qed.

Lemma startsWith_append (p r : string) : startsWith (p ++ r)%string p = true.
Proof.
  induction p as [|c p IH]; simpl; [reflexivity|].
  now rewrite Ascii.eqb_refl, IH.
Qed.

Lemma startsWith_inv (p s : string) :
  startsWith s p = true -> exists r, s = (p ++ r)%string.
Proof.
  revert s; induction p as [|c p IH]; intros s H; simpl in *.
  - now exists s.
  - destruct s as [|d s]; [discriminate|].
    apply andb_true_iff in H as [Hc Hs].
    apply Ascii.eqb_eq in Hc; subst d.
    destruct (IH _ Hs) as [r ->]. now exists r.
Qed.

Lemma endsWith_append (a t : string) : endsWith (a ++ t)%string t = true.
Proof.
  unfold endsWith. rewrite length_append.
  destruct (Nat.ltb_spec (String.length a + String.length t) (String.length t)) as [H|H];
    [lia|].
  replace (String.length a + String.length t - String.length t) with (String.length a) by lia.
  rewrite substring_skip. apply String.eqb_refl.
Qed.

(** Cutting a string at [n] and taking everything after it. *)
Lemma substring_split (s : string) : forall n m,
  n + m = String.length s ->
  s = (substring 0 n s ++ substring n m s)%string.
Proof.
  induction s as [|c s IH]; intros n m H; simpl in H.
  - destruct n, m; try discriminate; reflexivity.
  - destruct n as [|n].
    + destruct m as [|m]; [discriminate|]. simpl.
      injection H as H. now rewrite H, substring_all.
    + simpl. f_equal. apply IH. lia.
Qed.

Lemma endsWith_inv (s t : string) :
  endsWith s t = true -> exists a, s = (a ++ t)%string.
Proof.
  unfold endsWith.
  destruct (Nat.ltb_spec (String.length s) (String.length t)) as [H|H];
    [discriminate|].
  intros E. apply String.eqb_eq in E.
  exists (substring 0 (String.length s - String.length t) s).
  rewrite <- E at 2. apply substring_split. lia.
Qed.

End JsStringFacts.

(** ** Objects *)

Module JsObjFacts.
Import JsObj.

Section Facts.
Context {V : Type}.
Implicit Types (o : t V) (k : string) (v : V).

Lemma get_set_same o k v : get (set o k v) k = Some v.
Proof.
  induction o as [|[k' v'] o IH]; simpl.
  - now rewrite String.eqb_refl.
  - destruct (String.eqb_spec k' k) as [->|Hne]; simpl.
    + now rewrite String.eqb_refl.
    + apply String.eqb_neq in Hne. now rewrite Hne.
Qed.

Lemma get_set_other o k k' v : k' <> k -> get (set o k v) k' = get o k'.
Proof.
  intros Hne. induction o as [|[k0 v0] o IH]; simpl.
  - destruct (String.eqb_spec k k'); [congruence | reflexivity].
  - destruct (String.eqb_spec k0 k) as [->|Hk]; simpl.
    + destruct (String.eqb_spec k k'); [congruence | reflexivity].
    + now rewrite IH.
Qed.

Lemma get_some_in o k v : get o k = Some v -> In k (names o).
Proof.
  induction o as [|[k0 v0] o IH]; simpl; [discriminate|].
  destruct (String.eqb_spec k0 k) as [->|Hk]; [now left | right; auto].
Qed.

Lemma in_get_some o k : In k (names o) -> exists v, get o k = Some v.
Proof.
  induction o as [|[k0 v0] o IH]; simpl; [tauto|].
  intros [->|Hin].
  - rewrite String.eqb_refl. now exists v0.
  - destruct (String.eqb k0 k); [now exists v0 | auto].
Qed.

Lemma names_set o k v :
  names (set o k v) =
    match get o k with Some _ => names o | None => names o ++ [k] end.
Proof.
  induction o as [|[k0 v0] o IH]; simpl; [reflexivity|].
  destruct (String.eqb_spec k0 k) as [->|Hk]; simpl; [reflexivity|].
  change (k0 :: names (set o k v) =
            match get o k with Some _ => k0 :: names o | None => k0 :: names o ++ [k] end).
  rewrite IH. now destruct (get o k).
Qed.



Lemma wf_set o k v : wf o -> wf (set o k v).
Proof.
  unfold wf. rewrite names_set.
  destruct (get o k) eqn:E; [easy|].
  intros H. apply NoDup_app; [exact H | repeat constructor; simpl; tauto |].
  intros x Hx [<-|[]].
  destruct (in_get_some _ _ Hx) as [w Hw]. congruence.
Qed.
End Facts.

(** The enumeration is a rearrangement of the names. *)

Lemma insertIndex_perm n k l : Permutation (insertIndex n k l) ((n, k) :: l).
Proof.
  induction l as [|[m k'] l IH]; simpl; [reflexivity|].
  destruct (n <=? m)%N; [reflexivity|].
  rewrite IH. apply perm_swap.
Qed.

Lemma orderNames_perm ks : Permutation (orderNames ks) ks.
Proof.
  unfold orderNames. induction ks as [|k ks IH]; simpl; [reflexivity|].
  destruct (arrayIndex k) as [n|].
  - rewrite insertIndex_perm. simpl. now constructor.
  - rewrite <- Permutation_middle. now constructor.
Qed.

Lemma keys_perm {V} (o : t V) : Permutation (keys o) (names o).
Proof. apply orderNames_perm. Qed.

Lemma in_keys {V} (o : t V) k : In k (keys o) <-> In k (names o).
Proof.
  split; apply Permutation_in; [|symmetry]; apply keys_perm.
Qed.

Lemma keys_nodup {V} (o : t V) : wf o -> NoDup (keys o).
Proof.
  intros H. eapply Permutation_NoDup; [symmetry; apply keys_perm | exact H].
Qed.

Lemma keys_length {V} (o : t V) : List.length (keys o) = List.length o.
Proof.
  rewrite (Permutation_length (keys_perm o)). apply length_map.
Qed.

End JsObjFacts.

(** ** Classification, as equations on the two fields of the bridge *)

Lemma processRoomMembers_adminRooms cfg roomId adminRoomOwner newRoom members st :
  _adminRooms (processRoomMembers cfg roomId adminRoomOwner newRoom members st) =
    if registersAdminRoom (JsObj.keys members) adminRoomOwner
    then JsObj.set (_adminRooms st) roomId
           (AdminRoom.make roomId
              (registeredOwner cfg (JsObj.keys members) adminRoomOwner))
    else _adminRooms st.
Proof.
  unfold processRoomMembers, registersAdminRoom, registeredOwner.
  destruct ((List.length (JsObj.keys members) =? 2)%nat || truthy adminRoomOwner);
    [destruct newRoom|]; reflexivity.
Qed.

Lemma processRoomMembers_transportLog cfg roomId adminRoomOwner newRoom members st :
  transportLog (processRoomMembers cfg roomId adminRoomOwner newRoom members st) =
    transportLog st ++
      (if registersAdminRoom (JsObj.keys members) adminRoomOwner && newRoom
       then [SendText roomId welcomeText] else []).
Proof.
  unfold processRoomMembers, registersAdminRoom.
  destruct ((List.length (JsObj.keys members) =? 2)%nat || truthy adminRoomOwner);
    [destruct newRoom|]; simpl; try reflexivity; now rewrite app_nil_r.
Qed.

Lemma truthy_nonempty (s : string) : s <> "" -> truthy (Some s) = true.
Proof.
  intros H. simpl. apply String.eqb_neq in H. now rewrite H.
Qed.


(** ** The owner scan *)

Lemma scanOwner_some rooms roomIds userId room :
  scanOwner rooms roomIds userId = Some room ->
  exists k, In k roomIds /\ JsObj.get rooms k = Some room /\
            AdminRoom.owner room = Some userId.
Proof.
  induction roomIds as [|k ks IH]; simpl; [discriminate|].
  destruct (JsObj.get rooms k) as [r|] eqn:Hget.
  - destruct (AdminRoom.owner r) as [o|] eqn:Ho.
    + destruct (String.eqb_spec o userId) as [->|Hne].
      * intros [= <-]. exists k. auto.
      * intros H. destruct (IH H) as (k' & ? & ? & ?). exists k'. auto.
    + intros H. destruct (IH H) as (k' & ? & ? & ?). exists k'. auto.
  - intros H. destruct (IH H) as (k' & ? & ? & ?). exists k'. auto.
Qed.

Lemma scanOwner_finds rooms roomIds userId k room :
  In k roomIds -> JsObj.get rooms k = Some room ->
  AdminRoom.owner room = Some userId ->
  exists room', scanOwner rooms roomIds userId = Some room'.
Proof.
  intros Hin Hget Hown.
  induction roomIds as [|k0 ks IH]; simpl; [destruct Hin|].
  destruct (JsObj.get rooms k0) as [r|] eqn:Hget0.
  - destruct (AdminRoom.owner r) as [o|] eqn:Ho.
    + destruct (String.eqb_spec o userId) as [->|Hne]; [now exists r|].
      destruct Hin as [->|Hin]; [congruence | auto].
    + destruct Hin as [->|Hin]; [congruence | auto].
  - destruct Hin as [->|Hin]; [congruence | auto].
Qed.

Lemma findByOwner_some st userId room :
  findByOwner st userId = Some room ->
  exists k, JsObj.get (_adminRooms st) k = Some room /\
            AdminRoom.owner room = Some userId.
Proof.
  intros H. destruct (scanOwner_some _ _ _ _ H) as (k & _ & ? & ?). exists k. auto.
Qed.

Lemma findByOwner_finds st userId k room :
  JsObj.get (_adminRooms st) k = Some room ->
  AdminRoom.owner room = Some userId ->
  exists room', findByOwner st userId = Some room'.
Proof.
  intros Hget Hown. unfold findByOwner.
  eapply scanOwner_finds; eauto.
  apply JsObjFacts.in_keys. eapply JsObjFacts.get_some_in; eauto.
Qed.

Lemma findByOwner_none st userId :
  findByOwner st userId = None ->
  forall k room, JsObj.get (_adminRooms st) k = Some room ->
                 AdminRoom.owner room = Some userId -> False.
Proof.
  intros Hnone k room Hget Hown.
  destruct (findByOwner_finds st userId k room Hget Hown) as [room' H].
  congruence.
Qed.

(** ** Two-member rooms with the bot *)


Ltac solve_nodup :=
  repeat (apply NoDup_cons; [simpl; intuition discriminate|]); apply NoDup_nil.



(** An empty member name is falsy: with no forced owner the admin room of
    such a pair is registered with owner [null]. *)
Lemma processRoom_empty_member_name :
  JsObj.get
    (_adminRooms
       (snd (_processRoom Scenario.cfg "!e:example.org" None false
               (Resolved (Scenario.joinedBy [botUserId Scenario.cfg; ""]))
               newBridge)))
    "!e:example.org"
  = Some (AdminRoom.make "!e:example.org" None).
Proof. reflexivity. Qed.

(** ** A forced owner *)

(** With a forced owner the room is registered whatever its members. *)
Lemma processRoom_forced_registers cfg roomId userId newRoom members st :
  userId <> "" ->
  JsObj.get
    (_adminRooms
       (snd (_processRoom cfg roomId (Some userId) newRoom (Resolved members) st)))
    roomId
  = Some (AdminRoom.make roomId
            (registeredOwner cfg (JsObj.keys members) (Some userId))).
Proof.
  intros Hne. simpl. rewrite processRoomMembers_adminRooms.
  unfold registersAdminRoom. rewrite (truthy_nonempty _ Hne), orb_true_r.
  apply JsObjFacts.get_set_same.
Qed.

Lemma indexOfFrom_later (l : list string) (x : string) : forall i,
  (0 < i)%Z -> (indexOfFrom l x i =? 0)%Z = false.
Proof.
  induction l as [|y l IH]; intros i Hi; simpl; [reflexivity|].
  destruct (String.eqb y x); [apply Z.eqb_neq; lia|].
  apply IH. lia.
Qed.

(** The forced owner is the registered owner when nobody but the bot and
    that user has joined, as in a room the bot has just created for the
    user. *)
Lemma registeredOwner_forced cfg (ids : list string) userId :
  NoDup ids ->
  (forall id, In id ids -> id = botUserId cfg \/ id = userId) ->
  userId <> "" ->
  registeredOwner cfg ids (Some userId) = Some userId.
Proof.
  intros Hnd Hin Hne. unfold registeredOwner, indexOf, js_or.
  destruct ids as [|a ids]; [reflexivity|]. simpl.
  destruct (String.eqb_spec a (botUserId cfg)) as [->|Ha]; simpl.
  - destruct ids as [|b ids]; [reflexivity|].
    destruct (Hin b (or_intror (or_introl eq_refl))) as [->| ->].
    + inversion Hnd as [|? ? Hnotin _]. elim Hnotin. now left.
    + now rewrite truthy_nonempty.
  - destruct (Hin a (or_introl eq_refl)) as [->| ->]; [congruence|].
    rewrite indexOfFrom_later by lia. cbn [nth_error]. now rewrite truthy_nonempty.
Qed.

(** C2 (failing input). [_processRoom] is called with the forced owner Bob
    on a room joined by the bot and Alice: the room is registered as an
    admin room, but its owner is Alice, the joined member, and not the
    forced owner. *)
Lemma forced_owner_yields_to_joined_member :
  JsObj.get (_adminRooms Scenario.forcedForBob) "!r:example.org"
    = Some (AdminRoom.make "!r:example.org" (Some Scenario.alice)) /\
  Some Scenario.alice <> Some Scenario.bob.
Proof. split; [reflexivity | discriminate]. Qed.

(** ** Counting what a classification sends *)

Lemma textsSent_logCall c st :
  textsSent (logCall c st) = textsSent st + (if isSendText c then 1 else 0).
Proof.
  unfold textsSent, logCall. simpl. rewrite filter_app, length_app. simpl.
  now destruct (isSendText c).
Qed.

Lemma roomsCreated_logCall c st :
  roomsCreated (logCall c st) = roomsCreated st + (if isCreateRoom c then 1 else 0).
Proof.
  unfold roomsCreated, logCall. simpl. rewrite filter_app, length_app. simpl.
  now destruct (isCreateRoom c).
Qed.

Lemma textsSent_processRoomMembers cfg roomId adminRoomOwner newRoom members st :
  textsSent (processRoomMembers cfg roomId adminRoomOwner newRoom members st) =
    textsSent st +
      (if registersAdminRoom (JsObj.keys members) adminRoomOwner && newRoom
       then 1 else 0).
Proof.
  unfold textsSent. rewrite processRoomMembers_transportLog, filter_app, length_app.
  now destruct (registersAdminRoom (JsObj.keys members) adminRoomOwner && newRoom).
Qed.

Lemma roomsCreated_processRoomMembers cfg roomId adminRoomOwner newRoom members st :
  roomsCreated (processRoomMembers cfg roomId adminRoomOwner newRoom members st) =
    roomsCreated st.
Proof.
  unfold roomsCreated. rewrite processRoomMembers_transportLog, filter_app, length_app.
  destruct (registersAdminRoom (JsObj.keys members) adminRoomOwner && newRoom);
    simpl; lia.
Qed.

Lemma textsSent_processRoom cfg roomId adminRoomOwner newRoom members st :
  textsSent (snd (_processRoom cfg roomId adminRoomOwner newRoom (Resolved members) st)) =
    textsSent st +
      (if registersAdminRoom (JsObj.keys members) adminRoomOwner && newRoom
       then 1 else 0).
Proof.
  simpl. rewrite textsSent_processRoomMembers, textsSent_logCall. simpl. lia.
Qed.

Lemma adminRooms_processRoom cfg roomId adminRoomOwner newRoom members st :
  _adminRooms (snd (_processRoom cfg roomId adminRoomOwner newRoom (Resolved members) st)) =
    if registersAdminRoom (JsObj.keys members) adminRoomOwner
    then JsObj.set (_adminRooms st) roomId
           (AdminRoom.make roomId
              (registeredOwner cfg (JsObj.keys members) adminRoomOwner))
    else _adminRooms st.
Proof. simpl. now rewrite processRoomMembers_adminRooms. Qed.

(** ** Classifying the same room again *)



(** ** Rooms that are not administrative *)

(** C4. With no forced owner and zero, one or at least three joined
    members, [_processRoom] resolves without an error; it leaves the
    directory as it was and sends no text: all it did was to ask for the
    joined members. *)
Theorem processRoom_other_sizes_ignored cfg roomId newRoom (members : Members) st :
  List.length (JsObj.keys members) = 0 \/
  List.length (JsObj.keys members) = 1 \/
  3 <= List.length (JsObj.keys members) ->
  _processRoom cfg roomId None newRoom (Resolved members) st =
    (Resolved tt, logCall (GetJoinedMembers roomId) st) /\
  _adminRooms (snd (_processRoom cfg roomId None newRoom (Resolved members) st)) =
    _adminRooms st /\
  textsSent (snd (_processRoom cfg roomId None newRoom (Resolved members) st)) =
    textsSent st.
Proof.
  intros Hsize.
  assert (Hnot : registersAdminRoom (JsObj.keys members) None = false).
  { unfold registersAdminRoom. simpl. rewrite orb_false_r.
    apply Nat.eqb_neq. lia. }
  split; [|split].
  - unfold _processRoom, processRoomMembers.
    unfold registersAdminRoom in Hnot. now rewrite Hnot.
  - now rewrite adminRooms_processRoom, Hnot.
  - rewrite textsSent_processRoom, Hnot. simpl. lia.
Qed.

Lemma processRoom_other_sizes_ignored_witness :
  _processRoom Scenario.cfg "!group:example.org" None true
    (Resolved (Scenario.joinedBy
                 [botUserId Scenario.cfg; Scenario.alice; Scenario.bob]))
    Scenario.afterAliceRoom
  = (Resolved tt, logCall (GetJoinedMembers "!group:example.org") Scenario.afterAliceRoom).
Proof.
  refine (proj1
    (processRoom_other_sizes_ignored Scenario.cfg "!group:example.org" true
       (Scenario.joinedBy [botUserId Scenario.cfg; Scenario.alice; Scenario.bob])
       Scenario.afterAliceRoom _)).
  right. right. simpl. lia.
Defined.

(** ** Two members, none of them the bot *)

(** When the bot is not among the members, [indexOf] answers [-1] and the
    member enumerated first is taken for the other user. *)
Lemma registeredOwner_without_bot cfg (ids : list string) adminRoomOwner :
  ~ In (botUserId cfg) ids ->
  registeredOwner cfg ids adminRoomOwner = js_or (nth_error ids 0) adminRoomOwner.
Proof.
  intros Hnot. unfold registeredOwner, indexOf.
  destruct ids as [|a ids]; [reflexivity|]. simpl.
  destruct (String.eqb_spec a (botUserId cfg)) as [->|Ha].
  - elim Hnot. now left.
  - now rewrite indexOfFrom_later by lia.
Qed.

(** What the callback does with every pair of members that lacks the bot,
    with no forced owner: nothing fails, the room is filed as an admin
    room and is greeted when [newRoom] is set; the test is on the number
    of members only. *)
Lemma processRoom_pair_without_bot_registers
    cfg roomId newRoom (members : Members) st :
  List.length (JsObj.keys members) = 2 ->
  ~ In (botUserId cfg) (JsObj.keys members) ->
  forall r st', _processRoom cfg roomId None newRoom (Resolved members) st = (r, st') ->
  r = Resolved tt /\
  (exists owner,
     JsObj.get (_adminRooms st') roomId = Some (AdminRoom.make roomId owner)) /\
  textsSent st' = textsSent st + (if newRoom then 1 else 0).
Proof.
  intros Hlen Hnot r st' Hrun.
  assert (Hadmin : registersAdminRoom (JsObj.keys members) None = true).
  { unfold registersAdminRoom. now rewrite Hlen. }
  assert (Hst : st' = snd (_processRoom cfg roomId None newRoom (Resolved members) st))
    by now rewrite Hrun.
  split; [|split].
  - unfold _processRoom in Hrun. now injection Hrun as <- _.
  - exists (js_or (nth_error (JsObj.keys members) 0) None).
    rewrite Hst, adminRooms_processRoom, Hadmin.
    rewrite registeredOwner_without_bot by exact Hnot.
    apply JsObjFacts.get_set_same.
  - rewrite Hst, textsSent_processRoom, Hadmin. reflexivity.
Qed.

Lemma processRoom_pair_without_bot_registers_witness :
  exists owner,
    JsObj.get (_adminRooms (snd Scenario.afterInviteOfSms)) "!dm:example.org"
      = Some (AdminRoom.make "!dm:example.org" owner).
Proof.
  refine (proj1 (proj2
    (processRoom_pair_without_bot_registers Scenario.cfg "!dm:example.org" true
       Scenario.aliceAndSms newBridge _ _ _ _ eq_refl))).
  - reflexivity.
  - simpl. intuition discriminate.
Defined.

(** C5 (failing input). Alice invited the virtual user of a phone number
    to a conversation, and the virtual user joined; the bot is not in the
    room. [_processRoom] with no forced owner and [newRoom] set resolves
    instead of failing: [indexOf] answers [-1], the member at index 0 is
    taken for the owner, the conversation is filed as Alice's admin room
    and it is sent the welcome notice. *)
Lemma pair_without_bot_is_not_rejected :
  (List.length (JsObj.keys Scenario.aliceAndSms) = 2 /\
   ~ In (botUserId Scenario.cfg) (JsObj.keys Scenario.aliceAndSms)) /\
  fst Scenario.afterInviteOfSms = Resolved tt /\
  ~ (exists e, fst Scenario.afterInviteOfSms = Rejected e) /\
  JsObj.get (_adminRooms (snd Scenario.afterInviteOfSms)) "!dm:example.org"
    = Some (AdminRoom.make "!dm:example.org" (Some Scenario.alice)) /\
  transportLog (snd Scenario.afterInviteOfSms)
    = [GetJoinedMembers "!dm:example.org"; SendText "!dm:example.org" welcomeText].
Proof.
  repeat split.
  - simpl. intuition discriminate.
  - intros [e He]. discriminate He.
Qed.

(** With the virtual user enumerated first, the admin room is filed under
    the virtual user as owner. *)
Example pair_without_bot_owner_is_first :
  JsObj.get
    (_adminRooms
       (snd (_processRoom Scenario.cfg "!dm:example.org" None true
               (Resolved (Scenario.joinedBy [Scenario.sms; Scenario.alice]))
               newBridge)))
    "!dm:example.org"
  = Some (AdminRoom.make "!dm:example.org" (Some Scenario.sms)).
Proof. reflexivity. Qed.

(** ** Rooms created by [getOrCreateAdminRoom] *)

Lemma findByOwner_logCall c st userId :
  findByOwner (logCall c st) userId = findByOwner st userId.
Proof. reflexivity. Qed.

(** X13. Whatever the transport answers, [getOrCreateAdminRoom] sends no text. *)
Lemma getOrCreateAdminRoom_sends_nothing cfg userId created joined st :
  textsSent (snd (getOrCreateAdminRoom cfg userId created joined st)) = textsSent st.
Proof.
  unfold getOrCreateAdminRoom.
  destruct (findByOwner st userId) as [room|]; [reflexivity|].
  destruct created as [newRoomId|e]; simpl.
  2: { rewrite textsSent_logCall. simpl. lia. }
  destruct joined as [members|e]; simpl.
  - assert (E : textsSent
        (processRoomMembers cfg newRoomId (Some userId) false members
           (logCall (GetJoinedMembers newRoomId)
              (logCall (CreateRoom (adminRoomOptions userId)) st))) = textsSent st).
    { rewrite textsSent_processRoomMembers, andb_false_r, !textsSent_logCall.
      simpl. lia. }
    now destruct (JsObj.get _ newRoomId).
  - rewrite !textsSent_logCall. simpl. lia.
Qed.

(** The bridge after a call that had to create the room. *)
Lemma getOrCreateAdminRoom_creating cfg userId newRoomId (members : Members) st :
  findByOwner st userId = None ->
  snd (getOrCreateAdminRoom cfg userId (Resolved newRoomId) (Resolved members) st) =
    processRoomMembers cfg newRoomId (Some userId) false members
      (logCall (GetJoinedMembers newRoomId)
         (logCall (CreateRoom (adminRoomOptions userId)) st)).
Proof.
  intros Hnone. unfold getOrCreateAdminRoom. rewrite Hnone. simpl.
  now destruct (JsObj.get _ newRoomId).
Qed.

Lemma was_snd {A B} (p : A * B) (a : A) (b : B) : p = (a, b) -> b = snd p.
Proof. now intros ->. Qed.

(** C10. A call of [getOrCreateAdminRoom] that finds no admin room of the
    user creates a room and classifies it with [newRoom] left at [false]:
    the bridge asks the transport for the room and for its members and for
    nothing else, so no welcome notice reaches the new room. *)
Theorem getOrCreateAdminRoom_new_room_no_welcome
    cfg userId newRoomId (members : Members) st :
  findByOwner st userId = None ->
  forall r st',
  getOrCreateAdminRoom cfg userId (Resolved newRoomId) (Resolved members) st = (r, st') ->
  st' = processRoomMembers cfg newRoomId (Some userId) false members
          (logCall (GetJoinedMembers newRoomId)
             (logCall (CreateRoom (adminRoomOptions userId)) st)) /\
  transportLog st' =
    transportLog st ++ [CreateRoom (adminRoomOptions userId); GetJoinedMembers newRoomId] /\
  roomsCreated st' = roomsCreated st + 1 /\
  textsSent st' = textsSent st /\
  ~ In (SendText newRoomId welcomeText)
       (skipn (List.length (transportLog st)) (transportLog st')).
Proof.
  intros Hnone r st' Hrun.
  assert (Hst : st' = processRoomMembers cfg newRoomId (Some userId) false members
          (logCall (GetJoinedMembers newRoomId)
             (logCall (CreateRoom (adminRoomOptions userId)) st))).
  { rewrite (was_snd _ _ _ Hrun). now apply getOrCreateAdminRoom_creating. }
  assert (Hlog : transportLog st' =
    transportLog st ++ [CreateRoom (adminRoomOptions userId); GetJoinedMembers newRoomId]).
  { rewrite Hst, processRoomMembers_transportLog, andb_false_r, app_nil_r. simpl.
    now rewrite <- app_assoc. }
  repeat split; try assumption.
  - rewrite Hst, roomsCreated_processRoomMembers, !roomsCreated_logCall. simpl. lia.
  - rewrite Hst, textsSent_processRoomMembers, andb_false_r, !textsSent_logCall.
    simpl. lia.
  - rewrite Hlog, skipn_app, skipn_all, Nat.sub_diag. simpl.
    intros [H|[H|[]]]; discriminate H.
Qed.

Lemma getOrCreateAdminRoom_new_room_no_welcome_witness :
  textsSent
    (snd (getOrCreateAdminRoom Scenario.cfg Scenario.bob (Resolved "!new:example.org")
            (Resolved (Scenario.joinedBy [botUserId Scenario.cfg]))
            Scenario.afterAliceRoom))
  = textsSent Scenario.afterAliceRoom.
Proof.
  refine (proj1 (proj2 (proj2 (proj2
    (getOrCreateAdminRoom_new_room_no_welcome Scenario.cfg Scenario.bob
       "!new:example.org" (Scenario.joinedBy [botUserId Scenario.cfg])
       Scenario.afterAliceRoom _ _ _ eq_refl))))).
  reflexivity.
Defined.

(** ** Bridged users *)

(** The prefix holds no [":"], so that prefix and suffix never overlap. *)
Lemma smsUserName_test cfg (h : string) :
  JsString.startsWith h "@_sms_"
  && JsString.endsWith h (":" ++ homeserver_domain cfg)%string = true
  <-> hasSmsUserName cfg h.
Proof.
  split.
  - intros H. apply andb_true_iff in H as [Hp Hs].
    apply JsStringFacts.startsWith_inv in Hp as [r ->].
    apply JsStringFacts.endsWith_inv in Hs as [a Ha].
    do 6 (destruct a as [|? a]; simpl in Ha; [discriminate Ha|];
          injection Ha as <- Ha).
    exists a. simpl. now rewrite Ha.
  - intros [x ->]. apply andb_true_iff. split.
    + apply (JsStringFacts.startsWith_append "@_sms_").
    + apply (JsStringFacts.endsWith_append ("@_sms_" ++ x)%string
               (":" ++ homeserver_domain cfg)%string).
Qed.

Lemma isBridgeUser_string cfg (h : string) :
  isBridgeUser cfg (JsStr h) =
    Normal (String.eqb (botUserId cfg) h
            || (JsString.startsWith h "@_sms_"
                && JsString.endsWith h (":" ++ homeserver_domain cfg)%string)).
Proof.
  unfold isBridgeUser. simpl. now destruct (String.eqb (botUserId cfg) h).
Qed.

Lemma isBridgeUser_unrelated cfg (h : string) :
  h <> botUserId cfg -> ~ hasSmsUserName cfg h ->
  isBridgeUser cfg (JsStr h) = Normal false.
Proof.
  intros Hbot Hsms. rewrite isBridgeUser_string.
  assert (E : String.eqb (botUserId cfg) h = false)
    by (apply String.eqb_neq; congruence).
  rewrite E. simpl. f_equal.
  apply not_true_is_false. intros H. now apply Hsms, smsUserName_test.
Qed.

(** C6 (as amended). On every string, well formed as a user identity or
    not, [isBridgeUser] returns without throwing, and it returns false
    when the string is neither the bot's identity nor a name of the
    virtual-user form for the configured domain. *)
Theorem isBridgeUser_total_on_strings cfg (h : string) :
  (exists b, isBridgeUser cfg (JsStr h) = Normal b) /\
  (h <> botUserId cfg -> ~ hasSmsUserName cfg h ->
   isBridgeUser cfg (JsStr h) = Normal false).
Proof.
  split.
  - rewrite isBridgeUser_string. eauto.
  - apply isBridgeUser_unrelated.
Qed.

Lemma isBridgeUser_total_on_strings_witness :
  isBridgeUser Scenario.cfg (JsStr "not a user id") = Normal false.
Proof.
  refine (proj2 (isBridgeUser_total_on_strings Scenario.cfg "not a user id") _ _).
  - discriminate.
  - intros [x Hx]. discriminate Hx.
Defined.

(** C6 (counterexample). On [undefined], as for an event that has no
    [state_key], [isBridgeUser] throws a [TypeError] instead of returning
    false; [undefined] is neither the bot nor a virtual user. *)
Lemma isBridgeUser_throws_on_undefined :
  isBridgeUser Scenario.cfg JsUndefined = Throw TypeError /\
  ~ (exists b, isBridgeUser Scenario.cfg JsUndefined = Normal b).
Proof.
  split; [reflexivity|]. intros [b Hb]. discriminate Hb.
Qed.

(** C7. [isBridgeUser] is true of the bot's identity and of the identity
    behind [getSmsIntent] for every phone number, which is ["@_sms_"], the
    number, [":"] and the configured domain; it is false of every
    identity that is not the bot's and has not the virtual-user form. *)
Theorem isBridgeUser_bridge_identities cfg :
  isBridgeUser cfg (JsStr (botUserId cfg)) = Normal true /\
  (forall phoneNumber,
     getSmsIntent cfg phoneNumber
       = ("@_sms_" ++ phoneNumber ++ ":" ++ homeserver_domain cfg)%string /\
     isBridgeUser cfg (JsStr (getSmsIntent cfg phoneNumber)) = Normal true) /\
  (forall h, h <> botUserId cfg -> ~ hasSmsUserName cfg h ->
             isBridgeUser cfg (JsStr h) = Normal false).
Proof.
  split; [|split].
  - rewrite isBridgeUser_string. now rewrite String.eqb_refl.
  - intros phoneNumber. split; [reflexivity|].
    rewrite isBridgeUser_string.
    assert (E : JsString.startsWith (getSmsIntent cfg phoneNumber) "@_sms_"
                && JsString.endsWith (getSmsIntent cfg phoneNumber)
                     (":" ++ homeserver_domain cfg)%string = true).
    { apply smsUserName_test. now exists phoneNumber. }
    rewrite E. now rewrite orb_true_r.
  - intros h. apply isBridgeUser_unrelated.
Qed.

Lemma isBridgeUser_bridge_identities_witness :
  isBridgeUser Scenario.cfg (JsStr Scenario.alice) = Normal false.
Proof.
  refine (proj2 (proj2 (isBridgeUser_bridge_identities Scenario.cfg))
            Scenario.alice _ _).
  - discriminate.
  - intros [x Hx]. discriminate Hx.
Defined.

(** ** Calls of [getOrCreateAdminRoom] for one owner *)

(** The three turns, run back to back, make the whole call. *)
Lemma getOrCreateAdminRoom_by_turns cfg userId newRoomId (members : Members) st :
  findByOwner st userId = None ->
  getOrCreateAdminRoom cfg userId (Resolved newRoomId) (Resolved members) st =
    getOrCreateAdminRoom_joined cfg userId newRoomId members
      (getOrCreateAdminRoom_created newRoomId
         (snd (getOrCreateAdminRoom_call userId st))).
Proof.
  intros Hnone.
  unfold getOrCreateAdminRoom, getOrCreateAdminRoom_call,
    getOrCreateAdminRoom_joined, getOrCreateAdminRoom_created.
  rewrite Hnone. reflexivity.
Qed.

(** X14. The call turn does not touch the directory: a second call made before
    the first one's room is registered misses the lookup as well. *)
Lemma calls_in_one_turn_both_create userId st :
  findByOwner st userId = None ->
  fst (getOrCreateAdminRoom_call userId st) = CreatingRoom /\
  fst (getOrCreateAdminRoom_call userId (snd (getOrCreateAdminRoom_call userId st)))
    = CreatingRoom /\
  roomsCreated
    (snd (getOrCreateAdminRoom_call userId (snd (getOrCreateAdminRoom_call userId st))))
    = roomsCreated st + 2.
Proof.
  intros Hnone. unfold getOrCreateAdminRoom_call. rewrite Hnone. simpl.
  rewrite findByOwner_logCall, Hnone. simpl.
  rewrite !roomsCreated_logCall. simpl. repeat split. lia.
Qed.

Lemma get_of_entry {V} (o : JsObj.t V) k v :
  JsObj.wf o -> In (k, v) o -> JsObj.get o k = Some v.
Proof.
  unfold JsObj.wf, JsObj.names.
  induction o as [|[k0 v0] o IH]; simpl; [tauto|].
  intros Hnd [E|Hin].
  - injection E as -> ->. now rewrite String.eqb_refl.
  - inversion Hnd as [|? ? Hnotin Hnd']; subst.
    destruct (String.eqb_spec k0 k) as [->|_]; [|auto].
    elim Hnotin. change k with (fst (k, v)). now apply in_map.
Qed.

Lemma adminRoomsOf_none st userId :
  JsObj.wf (_adminRooms st) -> findByOwner st userId = None ->
  adminRoomsOf st userId = [].
Proof.
  intros Hwf Hnone. unfold adminRoomsOf.
  destruct (filter (ownedBy userId) (_adminRooms st)) as [|[k room] l] eqn:E;
    [reflexivity|].
  assert (Hin : In (k, room) (filter (ownedBy userId) (_adminRooms st)))
    by (rewrite E; now left).
  apply filter_In in Hin as [Hin Hown].
  unfold ownedBy in Hown. simpl in Hown.
  destruct (AdminRoom.owner room) as [o|] eqn:Ho; [|discriminate].
  apply String.eqb_eq in Hown. subst o.
  elim (findByOwner_none st userId Hnone k room); auto using get_of_entry.
Qed.

Lemma filter_set_single (P : string * AdminRoom.t -> bool) rooms k room :
  (forall k', P (k', room) = true) ->
  filter P rooms = [] ->
  filter P (JsObj.set rooms k room) = [(k, room)].
Proof.
  intros HP. induction rooms as [|[k0 v0] rooms IH]; simpl.
  - now rewrite HP.
  - destruct (P (k0, v0)) eqn:E0; [discriminate|]. intros Hnil.
    destruct (String.eqb_spec k0 k) as [->|Hk]; simpl.
    + now rewrite HP, Hnil.
    + rewrite E0. auto.
Qed.

(** C8 (as amended). [getOrCreateAdminRoom] has no guard for calls under
    way. Two calls for one owner share a room only when the first runs to
    its end with nothing else running in between (no other call and no
    classification of another room of the owner between the call and its
    callbacks) and the second starts from the bridge the first left: when
    the user had no admin room, the first call creates one room, of an id
    other than ["__proto__"], and registers it for the user (only the bot,
    and possibly the user, having joined it), and the second call answers
    with that very room and changes nothing, so that one room was created
    and the directory holds one admin room of the user. *)
Theorem getOrCreateAdminRoom_again_reuses
    cfg userId newRoomId (members : Members) created joined st :
  newRoomId <> "__proto__" ->
  JsObj.wf (_adminRooms st) ->
  findByOwner st userId = None ->
  userId <> "" ->
  JsObj.wf members ->
  (forall id, In id (JsObj.keys members) -> id = botUserId cfg \/ id = userId) ->
  forall r st1,
  getOrCreateAdminRoom cfg userId (Resolved newRoomId) (Resolved members) st = (r, st1) ->
  r = Resolved (AdminRoom.make newRoomId (Some userId)) /\
  roomsCreated st1 = roomsCreated st + 1 /\
  adminRoomsOf st1 userId = [(newRoomId, AdminRoom.make newRoomId (Some userId))] /\
  getOrCreateAdminRoom cfg userId created joined st1 = (r, st1).
Proof.
  intros _ Hwf Hnone Hne Hwfm Honly r st1 Hrun.
  assert (Hst : st1 = processRoomMembers cfg newRoomId (Some userId) false members
          (logCall (GetJoinedMembers newRoomId)
             (logCall (CreateRoom (adminRoomOptions userId)) st))).
  { rewrite (was_snd _ _ _ Hrun). now apply getOrCreateAdminRoom_creating. }
  assert (Hcreated : roomsCreated st1 = roomsCreated st + 1).
  { rewrite Hst, roomsCreated_processRoomMembers, !roomsCreated_logCall. simpl. lia. }
  assert (Hrooms : _adminRooms st1 =
    JsObj.set (_adminRooms st) newRoomId (AdminRoom.make newRoomId (Some userId))).
  { rewrite Hst, processRoomMembers_adminRooms.
    unfold registersAdminRoom. rewrite (truthy_nonempty _ Hne), orb_true_r.
    rewrite registeredOwner_forced; auto using JsObjFacts.keys_nodup. }
  assert (Hget : JsObj.get (_adminRooms st1) newRoomId =
                 Some (AdminRoom.make newRoomId (Some userId)))
    by (rewrite Hrooms; apply JsObjFacts.get_set_same).
  assert (Hr : r = Resolved (AdminRoom.make newRoomId (Some userId))).
  { unfold getOrCreateAdminRoom in Hrun. rewrite Hnone in Hrun. simpl in Hrun.
    rewrite <- Hst, Hget in Hrun. now injection Hrun as <-. }
  assert (Hfound : findByOwner st1 userId =
                   Some (AdminRoom.make newRoomId (Some userId))).
  { destruct (findByOwner_finds st1 userId _ _ Hget eq_refl) as [room Hroom].
    rewrite Hroom. f_equal.
    destruct (findByOwner_some _ _ _ Hroom) as (k & Hk & Hown).
    rewrite Hrooms in Hk.
    destruct (String.eqb_spec k newRoomId) as [->|Hk'].
    - rewrite JsObjFacts.get_set_same in Hk. congruence.
    - rewrite JsObjFacts.get_set_other in Hk by exact Hk'.
      elim (findByOwner_none st userId Hnone k room Hk Hown). }
  repeat split; try assumption.
  - unfold adminRoomsOf. rewrite Hrooms. apply filter_set_single.
    + intros k'. unfold ownedBy. simpl. apply String.eqb_refl.
    + now apply adminRoomsOf_none.
  - unfold getOrCreateAdminRoom. rewrite Hfound. now rewrite Hr.
Qed.

Lemma getOrCreateAdminRoom_again_reuses_witness :
  getOrCreateAdminRoom Scenario.cfg Scenario.bob
    (Resolved "!other:example.org") (Rejected (TransportError "not reached"))
    (snd (getOrCreateAdminRoom Scenario.cfg Scenario.bob (Resolved "!new:example.org")
            (Resolved (Scenario.joinedBy [botUserId Scenario.cfg]))
            Scenario.afterAliceRoom))
  = getOrCreateAdminRoom Scenario.cfg Scenario.bob (Resolved "!new:example.org")
      (Resolved (Scenario.joinedBy [botUserId Scenario.cfg]))
      Scenario.afterAliceRoom.
Proof.
  refine (proj2 (proj2 (proj2
    (getOrCreateAdminRoom_again_reuses Scenario.cfg Scenario.bob "!new:example.org"
       (Scenario.joinedBy [botUserId Scenario.cfg])
       (Resolved "!other:example.org") (Rejected (TransportError "not reached"))
       Scenario.afterAliceRoom _ _ _ _ _ _ _ _ eq_refl)))).
  - discriminate.
  - unfold JsObj.wf. vm_compute. solve_nodup.
  - reflexivity.
  - discriminate.
  - unfold JsObj.wf. simpl. solve_nodup.
  - simpl. intros id [<-|[]]. now left.
Defined.

(** C8 (counterexample). Two calls for Alice are made in one turn on the
    empty directory. Both miss the lookup and both ask for a room; once
    the transport has answered both, two rooms were created and the
    directory holds two admin rooms of Alice. *)
Lemma calls_in_one_turn_create_two_rooms :
  _adminRooms newBridge = JsObj.empty /\
  fst Scenario.firstCall = CreatingRoom /\
  fst Scenario.secondCall = CreatingRoom /\
  fst Scenario.firstSettled
    = Resolved (AdminRoom.make "!r1:example.org" (Some Scenario.alice)) /\
  fst Scenario.secondSettled
    = Resolved (AdminRoom.make "!r2:example.org" (Some Scenario.alice)) /\
  roomsCreated (snd Scenario.secondSettled) = 2 /\
  adminRoomsOf (snd Scenario.secondSettled) Scenario.alice
    = [("!r1:example.org", AdminRoom.make "!r1:example.org" (Some Scenario.alice));
       ("!r2:example.org", AdminRoom.make "!r2:example.org" (Some Scenario.alice))].
Proof. repeat split. Qed.

(** ** The event entry point *)

(** C9 (as amended). [_onEvent] has no handler of its own for exceptions.
    It returns without throwing on every event that is well formed (its
    room id is no name inherited from [Object.prototype], a membership
    event carries a content, and an invite names its invitee by a string)
    and that the admin room of the event's room, if there is one, handles
    without throwing. What fails later is not caught either:
    the promise handed back for an invite is rejected when the join or the
    fetch of the joined members is. *)
Theorem onEvent_well_formed_returns cfg handleEvent event st :
  ~ In (room_id event) JsObj.prototypeNames ->
  (forall room, JsObj.get (_adminRooms st) (room_id event) = Some room ->
                exists st1, handleEvent room event st = Normal st1) ->
  (type event = "m.room.member" ->
   exists c, content event = Some c /\
             (membership c = JsStr "invite" ->
              exists invitee, state_key event = JsStr invitee)) ->
  (exists h st', _onEvent cfg handleEvent event st = Normal (h, st')) /\
  (forall e joined st0,
     joinThenProcessRoom cfg (room_id event) (Rejected e) joined st0
       = (Rejected e, st0)) /\
  (forall e st0,
     joinThenProcessRoom cfg (room_id event) (Resolved tt) (Rejected e) st0
       = (Rejected e, logCall (GetJoinedMembers (room_id event)) st0)).
Proof.
  intros _ Hadmin Hformed. split; [|split; reflexivity].
  assert (Hother : forall s, exists h st',
            onOtherEvent cfg event s = Normal (h, st')).
  { intros s. unfold onOtherEvent.
    destruct (String.eqb (type event) "m.room.message"
              && negb (String.eqb (sender event) (botUserId cfg))); eauto. }
  unfold _onEvent, _tryProcessAdminEvent.
  assert (Hfirst : exists st1,
    match JsObj.get (_adminRooms st) (room_id event) with
    | Some room => handleEvent room event st
    | None => Normal st
    end = Normal st1).
  { destruct (JsObj.get (_adminRooms st) (room_id event)) as [room|] eqn:E;
      [apply Hadmin; reflexivity | eauto]. }
  destruct Hfirst as [st1 ->].
  destruct (String.eqb_spec (type event) "m.room.member") as [Hty|_]; [|apply Hother].
  destruct (Hformed Hty) as (c & -> & Hinvite).
  destruct (membership c) as [| |m] eqn:Hm; simpl; try apply Hother.
  destruct (String.eqb_spec m "invite") as [->|_]; [|apply Hother].
  destruct (Hinvite eq_refl) as [invitee ->].
  rewrite isBridgeUser_string.
  destruct (String.eqb (botUserId cfg) invitee
            || JsString.startsWith invitee "@_sms_"
               && JsString.endsWith invitee (":" ++ homeserver_domain cfg)%string);
    [eauto | apply Hother].
Qed.

Lemma onEvent_well_formed_returns_witness :
  exists h st',
    _onEvent Scenario.cfg Scenario.quietHandleEvent
      (Scenario.invite (JsStr Scenario.sms) "!dm:example.org")
      Scenario.afterAliceRoom
    = Normal (h, st').
Proof.
  refine (proj1
    (onEvent_well_formed_returns Scenario.cfg Scenario.quietHandleEvent
       (Scenario.invite (JsStr Scenario.sms) "!dm:example.org")
       Scenario.afterAliceRoom _ _ _)).
  - simpl. intuition discriminate.
  - intros room _. exists Scenario.afterAliceRoom. reflexivity.
  - intros _. exists {| membership := JsStr "invite" |}. split; [reflexivity|].
    intros _. exists Scenario.sms. reflexivity.
Defined.

(** C9 (counterexample). A membership event without content makes
    [_onEvent] throw a [TypeError] while it reads [event.content.membership],
    although the admin rooms handle every event quietly. *)
Lemma onEvent_throws_without_content :
  _onEvent Scenario.cfg Scenario.quietHandleEvent
    Scenario.memberEventWithoutContent newBridge = Throw TypeError /\
  ~ (exists h st',
       _onEvent Scenario.cfg Scenario.quietHandleEvent
         Scenario.memberEventWithoutContent newBridge = Normal (h, st')).
Proof.
  split; [reflexivity|]. intros (h & st' & H). discriminate H.
Qed.

(** An invite whose [state_key] is missing throws too, inside
    [isBridgeUser]. *)
Lemma onEvent_throws_without_state_key :
  _onEvent Scenario.cfg Scenario.quietHandleEvent
    (Scenario.invite JsUndefined "!dm:example.org") newBridge = Throw TypeError.
Proof. reflexivity. Qed.

(** The invite of a virtual user is accepted: the user joins, and the room
    is then classified as a new room. *)
Lemma onEvent_accepts_invite_of_virtual_user :
  _onEvent Scenario.cfg Scenario.quietHandleEvent
    (Scenario.invite (JsStr Scenario.sms) "!dm:example.org") newBridge
  = Normal (JoinThenProcessRoom (JsStr Scenario.sms) "!dm:example.org",
            logCall (Join (JsStr Scenario.sms) "!dm:example.org") newBridge).
Proof. reflexivity. Qed.

(** ** Two runs of the classifier, end to end *)

(** The bot joins a room with Alice, flagged as new: one admin room owned
    by Alice, one welcome notice. *)
Example new_room_with_alice :
  _processRoom Scenario.cfg "!a:example.org" None true
    (Resolved Scenario.aliceAndBot) newBridge
  = (Resolved tt,
     {| _adminRooms :=
          [("!a:example.org", AdminRoom.make "!a:example.org" (Some Scenario.alice))];
        transportLog :=
          [GetJoinedMembers "!a:example.org";
           SendText "!a:example.org" welcomeText] |}).
Proof. reflexivity. Qed.

(** The startup scan meets the same room: the admin room is registered and
    nothing is sent. *)
Example startup_scan_of_alice_room :
  Scenario.afterAliceRoom
  = {| _adminRooms :=
         [("!a:example.org", AdminRoom.make "!a:example.org" (Some Scenario.alice))];
       transportLog := [GetJoinedMembers "!a:example.org"] |}.
Proof. reflexivity. Qed.

(** Array-index names are enumerated first, in numeric order. *)
Example keys_order :
  JsObj.keys (Scenario.joinedBy ["@b:x"; "10"; "@a:x"; "9"; "007"])
  = ["9"; "10"; "@b:x"; "@a:x"; "007"].
Proof. reflexivity. Qed.

(** * Further properties of the bridge *)

(** ** What a classification does to the directory *)

Lemma adminRooms_processRoom_any cfg roomId adminRoomOwner newRoom joined st :
  _adminRooms (snd (_processRoom cfg roomId adminRoomOwner newRoom joined st)) =
    match joined with
    | Resolved members =>
        if registersAdminRoom (JsObj.keys members) adminRoomOwner
        then JsObj.set (_adminRooms st) roomId
               (AdminRoom.make roomId
                  (registeredOwner cfg (JsObj.keys members) adminRoomOwner))
        else _adminRooms st
    | Rejected _ => _adminRooms st
    end.
Proof.
  destruct joined as [members|e]; [apply adminRooms_processRoom | reflexivity].
Qed.

(** X1. Classifying a room, of an id other than ["__proto__"], leaves the
    entries of all other rooms as they were, whatever the members, the
    forced owner and the transport's answer. *)
Theorem processRoom_other_rooms_untouched
    cfg roomId adminRoomOwner newRoom joined st k :
  roomId <> "__proto__" ->
  k <> roomId ->
  JsObj.get (_adminRooms (snd (_processRoom cfg roomId adminRoomOwner newRoom joined st))) k
  = JsObj.get (_adminRooms st) k.
Proof.
  intros _ Hk. rewrite adminRooms_processRoom_any.
  destruct joined as [members|e]; [|reflexivity].
  destruct (registersAdminRoom (JsObj.keys members) adminRoomOwner); [|reflexivity].
  now apply JsObjFacts.get_set_other.
Qed.

Lemma processRoom_other_rooms_untouched_witness :
  JsObj.get
    (_adminRooms
       (snd (_processRoom Scenario.cfg "!b:example.org" (Some Scenario.bob) true
               (Resolved Startup.group) Scenario.afterAliceRoom)))
    "!a:example.org"
  = JsObj.get (_adminRooms Scenario.afterAliceRoom) "!a:example.org".
Proof.
  apply (processRoom_other_rooms_untouched Scenario.cfg "!b:example.org"
           (Some Scenario.bob) true (Resolved Startup.group)
           Scenario.afterAliceRoom "!a:example.org");
    discriminate.
Defined.

(** X2. No classification removes a room from the directory or moves it: the
    rooms filed before keep their order of creation, and at most the
    classified room is added, last. *)
Theorem processRoom_keeps_rooms cfg roomId adminRoomOwner newRoom joined st :
  exists added,
    JsObj.names (_adminRooms (snd (_processRoom cfg roomId adminRoomOwner newRoom joined st)))
    = JsObj.names (_adminRooms st) ++ added /\
    (added = [] \/
     added = [roomId] /\ JsObj.get (_adminRooms st) roomId = None).
Proof.
  rewrite adminRooms_processRoom_any.
  destruct joined as [members|e];
    [|exists []; split; [now rewrite app_nil_r | now left]].
  destruct (registersAdminRoom (JsObj.keys members) adminRoomOwner);
    [|exists []; split; [now rewrite app_nil_r | now left]].
  rewrite JsObjFacts.names_set.
  destruct (JsObj.get (_adminRooms st) roomId) as [old|] eqn:E.
  - exists []. split; [now rewrite app_nil_r | now left].
  - exists [roomId]. split; [reflexivity | now right].
Qed.

Lemma js_or_cases (a b : option string) :
  js_or a b = b \/ exists s, a = Some s /\ s <> "" /\ js_or a b = Some s.
Proof.
  unfold js_or. destruct a as [s|]; simpl; [|now left].
  destruct (String.eqb_spec s "") as [->|Hs]; simpl; [now left|].
  right. now exists s.
Qed.

(** X3. The owner written into the directory is never made up: it is the
    forced owner as it was passed (possibly [null]) or a joined member of
    the room, and the admin room is filed under its own room id. *)
Theorem processRoom_owner_provenance
    cfg roomId adminRoomOwner newRoom (members : Members) st :
  registersAdminRoom (JsObj.keys members) adminRoomOwner = true ->
  exists room,
    JsObj.get
      (_adminRooms (snd (_processRoom cfg roomId adminRoomOwner newRoom
                           (Resolved members) st))) roomId = Some room /\
    AdminRoom.roomId room = roomId /\
    (AdminRoom.owner room = adminRoomOwner \/
     exists member, In member (JsObj.keys members) /\ member <> "" /\
                    AdminRoom.owner room = Some member).
Proof.
  intros Hadmin. rewrite adminRooms_processRoom, Hadmin.
  eexists. split; [apply JsObjFacts.get_set_same|]. split; [reflexivity|].
  simpl. unfold registeredOwner.
  destruct (js_or_cases
              (nth_error (JsObj.keys members)
                 (if (indexOf (JsObj.keys members) (botUserId cfg) =? 0)%Z then 1 else 0))
              adminRoomOwner) as [E|(s & Hnth & Hs & E)].
  - now left.
  - right. exists s. repeat split; auto. eapply nth_error_In; eauto.
Qed.

Lemma processRoom_owner_provenance_witness :
  exists room,
    JsObj.get (_adminRooms Scenario.forcedForBob) "!r:example.org" = Some room /\
    AdminRoom.roomId room = "!r:example.org" /\
    (AdminRoom.owner room = Some Scenario.bob \/
     exists member, In member (JsObj.keys Scenario.aliceAndBot) /\ member <> "" /\
                    AdminRoom.owner room = Some member).
Proof.
  apply (processRoom_owner_provenance Scenario.cfg "!r:example.org"
           (Some Scenario.bob) false Scenario.aliceAndBot newBridge).
  reflexivity.
Defined.

(** ** Invariants of the directory *)

Lemma wf_processRoom cfg roomId adminRoomOwner newRoom joined st :
  JsObj.wf (_adminRooms st) ->
  JsObj.wf (_adminRooms (snd (_processRoom cfg roomId adminRoomOwner newRoom joined st))).
Proof.
  intros Hwf. rewrite adminRooms_processRoom_any.
  destruct joined as [members|e]; [|exact Hwf].
  destruct (registersAdminRoom (JsObj.keys members) adminRoomOwner);
    [now apply JsObjFacts.wf_set | exact Hwf].
Qed.

Lemma consistent_set (rooms : JsObj.t AdminRoom.t) roomId owner :
  (forall k room, JsObj.get rooms k = Some room -> AdminRoom.roomId room = k) ->
  forall k room,
    JsObj.get (JsObj.set rooms roomId (AdminRoom.make roomId owner)) k = Some room ->
    AdminRoom.roomId room = k.
Proof.
  intros H k room.
  destruct (String.eqb_spec k roomId) as [->|Hk].
  - rewrite JsObjFacts.get_set_same. now intros [= <-].
  - rewrite JsObjFacts.get_set_other by exact Hk. apply H.
Qed.

Lemma consistent_processRoom cfg roomId adminRoomOwner newRoom joined st :
  directoryConsistent st ->
  directoryConsistent (snd (_processRoom cfg roomId adminRoomOwner newRoom joined st)).
Proof.
  unfold directoryConsistent. intros H. rewrite adminRooms_processRoom_any.
  destruct joined as [members|e]; [|exact H].
  destruct (registersAdminRoom (JsObj.keys members) adminRoomOwner);
    [now apply consistent_set | exact H].
Qed.

Lemma consistent_newBridge : directoryConsistent newBridge.
Proof. intros k room. discriminate. Qed.

(** The directory after [getOrCreateAdminRoom] is the one it started from
    or the one left by the classification of the new room. *)
Lemma adminRooms_getOrCreateAdminRoom cfg userId created joined st :
  _adminRooms (snd (getOrCreateAdminRoom cfg userId created joined st)) = _adminRooms st \/
  exists newRoomId,
    created = Resolved newRoomId /\
    findByOwner st userId = None /\
    _adminRooms (snd (getOrCreateAdminRoom cfg userId created joined st)) =
    _adminRooms (snd (_processRoom cfg newRoomId (Some userId) false joined st)).
Proof.
  unfold getOrCreateAdminRoom.
  destruct (findByOwner st userId) as [room|] eqn:Hfind; [now left|].
  destruct created as [newRoomId|e]; [|now left].
  right. exists newRoomId. repeat split.
  destruct joined as [members|e]; [|reflexivity].
  simpl.
  transitivity (_adminRooms
    (processRoomMembers cfg newRoomId (Some userId) false members
       (logCall (GetJoinedMembers newRoomId)
          (logCall (CreateRoom (adminRoomOptions userId)) st)))).
  - now destruct (JsObj.get _ newRoomId).
  - now rewrite !processRoomMembers_adminRooms.
Qed.

Lemma wf_processRoomMembers cfg roomId adminRoomOwner newRoom members st :
  JsObj.wf (_adminRooms st) ->
  JsObj.wf (_adminRooms (processRoomMembers cfg roomId adminRoomOwner newRoom members st)).
Proof.
  intros Hwf. rewrite processRoomMembers_adminRooms.
  destruct (registersAdminRoom (JsObj.keys members) adminRoomOwner);
    [now apply JsObjFacts.wf_set | exact Hwf].
Qed.

Lemma consistent_processRoomMembers cfg roomId adminRoomOwner newRoom members st :
  directoryConsistent st ->
  directoryConsistent (processRoomMembers cfg roomId adminRoomOwner newRoom members st).
Proof.
  unfold directoryConsistent. intros H. rewrite processRoomMembers_adminRooms.
  destruct (registersAdminRoom (JsObj.keys members) adminRoomOwner);
    [now apply consistent_set | exact H].
Qed.

Lemma adminRooms_joinedRooms rooms st :
  _adminRooms (_bridgeKnownRooms_joinedRooms rooms st) = _adminRooms st.
Proof.
  unfold _bridgeKnownRooms_joinedRooms. revert st.
  induction rooms as [|r rooms IH]; intros st; simpl; [reflexivity|].
  now rewrite IH.
Qed.

Lemma transportLog_joinedRooms rooms st :
  transportLog (_bridgeKnownRooms_joinedRooms rooms st) =
    transportLog st ++ map GetJoinedMembers rooms.
Proof.
  unfold _bridgeKnownRooms_joinedRooms. revert st.
  induction rooms as [|r rooms IH]; intros st; simpl; [now rewrite app_nil_r|].
  rewrite IH. simpl. now rewrite <- app_assoc.
Qed.

Lemma transportLog_processRoomAnswers cfg answers st :
  transportLog (processRoomAnswers cfg answers st) = transportLog st.
Proof.
  unfold processRoomAnswers. revert st.
  induction answers as [|[r m] answers IH]; intros st; simpl; [reflexivity|].
  rewrite IH, processRoomMembers_transportLog, andb_false_r. apply app_nil_r.
Qed.

Lemma invariants_processRoomAnswers cfg answers st :
  JsObj.wf (_adminRooms st) /\ directoryConsistent st ->
  JsObj.wf (_adminRooms (processRoomAnswers cfg answers st)) /\
  directoryConsistent (processRoomAnswers cfg answers st).
Proof.
  unfold processRoomAnswers. revert st.
  induction answers as [|[r m] answers IH]; intros st [Hwf Hc]; simpl; [now split|].
  apply IH. split;
    [now apply wf_processRoomMembers | now apply consistent_processRoomMembers].
Qed.

(** X5. Every bridge that the constructor, [_processRoom],
    [getOrCreateAdminRoom] and the startup scan can produce, under any
    answers of the transport, has a directory whose room ids are distinct
    and whose entries are filed under their own room id. *)
Theorem reachable_directory_invariants cfg st :
  reachable cfg st ->
  JsObj.wf (_adminRooms st) /\ directoryConsistent st.
Proof.
  induction 1 as [|roomId o n joined st _ [Hwf Hc]
                  |userId created joined st _ [Hwf Hc]
                  |joinedRooms answers st _ [Hwf Hc]].
  - split; [apply NoDup_nil | intros k room; discriminate].
  - split; [now apply wf_processRoom | now apply consistent_processRoom].
  - unfold directoryConsistent.
    destruct (adminRooms_getOrCreateAdminRoom cfg userId created joined st)
      as [->|(newRoomId & _ & _ & ->)]; [now split|].
    split; [now apply wf_processRoom|].
    now apply (consistent_processRoom cfg newRoomId (Some userId) false joined st).
  - destruct joinedRooms as [rooms|e]; simpl; [|now split].
    apply invariants_processRoomAnswers. split.
    + now rewrite adminRooms_joinedRooms.
    + unfold directoryConsistent. now rewrite adminRooms_joinedRooms.
Qed.

Lemma reachable_directory_invariants_witness :
  JsObj.wf (_adminRooms Startup.scanned) /\ directoryConsistent Startup.scanned.
Proof.
  apply (reachable_directory_invariants Scenario.cfg Startup.scanned).
  apply reach_bridgeKnownRooms. apply reach_new.
Defined.

(** ** What [getOrCreateAdminRoom] answers *)

(** X8. A user who has an admin room gets one back at once: the call resolves
    with an admin room of that user and leaves the bridge as it was; no
    room is asked for, whatever the transport would have answered. *)
Theorem getOrCreateAdminRoom_existing cfg userId created joined st k room0 :
  JsObj.get (_adminRooms st) k = Some room0 ->
  AdminRoom.owner room0 = Some userId ->
  exists room,
    getOrCreateAdminRoom cfg userId created joined st = (Resolved room, st) /\
    AdminRoom.owner room = Some userId /\
    exists k', JsObj.get (_adminRooms st) k' = Some room.
Proof.
  intros Hget Hown.
  destruct (findByOwner_finds st userId k room0 Hget Hown) as [room Hroom].
  exists room. unfold getOrCreateAdminRoom. rewrite Hroom.
  destruct (findByOwner_some _ _ _ Hroom) as (k' & Hk' & Hown').
  repeat split; eauto.
Qed.

Lemma getOrCreateAdminRoom_existing_witness :
  exists room,
    getOrCreateAdminRoom Scenario.cfg Scenario.alice
      (Rejected (TransportError "down")) (Rejected (TransportError "down"))
      Scenario.afterSecondAliceRoom
    = (Resolved room, Scenario.afterSecondAliceRoom) /\
    AdminRoom.owner room = Some Scenario.alice /\
    exists k', JsObj.get (_adminRooms Scenario.afterSecondAliceRoom) k' = Some room.
Proof.
  apply (getOrCreateAdminRoom_existing Scenario.cfg Scenario.alice
           (Rejected (TransportError "down")) (Rejected (TransportError "down"))
           Scenario.afterSecondAliceRoom "!b:example.org"
           (AdminRoom.make "!b:example.org" (Some Scenario.alice)));
    reflexivity.
Defined.

(** X9. The room that [getOrCreateAdminRoom] resolves with is registered in
    the directory under its own room id, on both paths, when the directory
    it started from files every entry under its own room id. *)
Theorem getOrCreateAdminRoom_resolved_is_registered
    cfg userId created joined st room st' :
  directoryConsistent st ->
  getOrCreateAdminRoom cfg userId created joined st = (Resolved room, st') ->
  JsObj.get (_adminRooms st') (AdminRoom.roomId room) = Some room.
Proof.
  intros Hc Hrun. unfold getOrCreateAdminRoom in Hrun.
  destruct (findByOwner st userId) as [found|] eqn:Hfind.
  - injection Hrun as -> ->.
    destruct (findByOwner_some _ _ _ Hfind) as (k & Hk & _).
    now rewrite (Hc k room Hk).
  - destruct created as [newRoomId|e]; [|discriminate].
    destruct joined as [members|e]; [|discriminate]. simpl in Hrun.
    destruct (JsObj.get _ newRoomId) as [room'|] eqn:Hget; [|discriminate].
    injection Hrun as -> <-.
    assert (Hid : AdminRoom.roomId room = newRoomId).
    { eapply consistent_processRoomMembers; [|exact Hget]. exact Hc. }
    now rewrite Hid.
Qed.

Lemma getOrCreateAdminRoom_resolved_is_registered_witness :
  JsObj.get
    (_adminRooms
       (snd (getOrCreateAdminRoom Scenario.cfg Scenario.bob (Resolved "!new:example.org")
               (Resolved (Scenario.joinedBy [botUserId Scenario.cfg]))
               Scenario.afterAliceRoom)))
    "!new:example.org"
  = Some (AdminRoom.make "!new:example.org" (Some Scenario.bob)).
Proof.
  apply (getOrCreateAdminRoom_resolved_is_registered Scenario.cfg Scenario.bob
           (Resolved "!new:example.org")
           (Resolved (Scenario.joinedBy [botUserId Scenario.cfg]))
           Scenario.afterAliceRoom
           (AdminRoom.make "!new:example.org" (Some Scenario.bob))).
  - apply (consistent_processRoom Scenario.cfg "!a:example.org" None false
             (Resolved (Scenario.joinedBy [botUserId Scenario.cfg; Scenario.alice]))
             newBridge).
    apply consistent_newBridge.
  - reflexivity.
Defined.

(** X10. For a user id that is not empty, the creating path never ends in the
    bridge's own error: once the room is created and its members are
    fetched, the call resolves, and when the user had no admin room the
    room it resolves with is the new one. *)
Theorem getOrCreateAdminRoom_resolves cfg userId newRoomId (members : Members) st :
  userId <> "" ->
  exists room st',
    getOrCreateAdminRoom cfg userId (Resolved newRoomId) (Resolved members) st
      = (Resolved room, st') /\
    (findByOwner st userId = None ->
     AdminRoom.roomId room = newRoomId /\
     JsObj.get (_adminRooms st') newRoomId = Some room).
Proof.
  intros Hne. unfold getOrCreateAdminRoom.
  destruct (findByOwner st userId) as [found|] eqn:Hfind.
  - exists found, st. split; [reflexivity | discriminate].
  - pose proof (processRoom_forced_registers cfg newRoomId userId false members
                  (logCall (CreateRoom (adminRoomOptions userId)) st) Hne) as Hget.
    simpl in Hget. simpl. rewrite Hget.
    eexists. eexists. split; [reflexivity|]. intros _. split; [reflexivity | exact Hget].
Qed.

Lemma getOrCreateAdminRoom_resolves_witness :
  exists room st',
    getOrCreateAdminRoom Scenario.cfg Scenario.carol (Resolved "!c:example.org")
      (Resolved Startup.group) Scenario.afterAliceRoom
      = (Resolved room, st') /\
    (findByOwner Scenario.afterAliceRoom Scenario.carol = None ->
     AdminRoom.roomId room = "!c:example.org" /\
     JsObj.get (_adminRooms st') "!c:example.org" = Some room).
Proof.
  apply (getOrCreateAdminRoom_resolves Scenario.cfg Scenario.carol "!c:example.org"
           Startup.group Scenario.afterAliceRoom).
  discriminate.
Defined.

(** X11. The empty user id is falsy and forces nothing: when no admin room has
    a owner equal to it, the new room, whose id is no name inherited from
    [Object.prototype], was not registered before and has not exactly two
    joined members, the call creates the room and then
    rejects with the bridge's own error, leaving the directory as it
    was. *)
Theorem getOrCreateAdminRoom_empty_user cfg newRoomId (members : Members) st :
  ~ In newRoomId JsObj.prototypeNames ->
  findByOwner st "" = None ->
  JsObj.get (_adminRooms st) newRoomId = None ->
  List.length (JsObj.keys members) <> 2 ->
  exists st',
    getOrCreateAdminRoom cfg "" (Resolved newRoomId) (Resolved members) st
      = (Rejected (Error "Could not create admin room for "), st') /\
    _adminRooms st' = _adminRooms st /\
    roomsCreated st' = roomsCreated st + 1.
Proof.
  intros _ Hfind Hnone Hlen. unfold getOrCreateAdminRoom. rewrite Hfind. simpl.
  assert (Hno : registersAdminRoom (JsObj.keys members) (Some "") = false).
  { unfold registersAdminRoom. simpl. rewrite orb_false_r. now apply Nat.eqb_neq. }
  assert (Hrooms : _adminRooms
    (processRoomMembers cfg newRoomId (Some "") false members
       (logCall (GetJoinedMembers newRoomId)
          (logCall (CreateRoom (adminRoomOptions "")) st))) = _adminRooms st)
    by now rewrite processRoomMembers_adminRooms, Hno.
  rewrite Hrooms, Hnone. eexists. split; [reflexivity|]. split; [exact Hrooms|].
  rewrite roomsCreated_processRoomMembers, !roomsCreated_logCall. simpl. lia.
Qed.

Lemma getOrCreateAdminRoom_empty_user_witness :
  exists st',
    getOrCreateAdminRoom Scenario.cfg "" (Resolved "!n:example.org")
      (Resolved (Scenario.joinedBy [botUserId Scenario.cfg])) Scenario.afterAliceRoom
      = (Rejected (Error "Could not create admin room for "), st') /\
    _adminRooms st' = _adminRooms Scenario.afterAliceRoom /\
    roomsCreated st' = roomsCreated Scenario.afterAliceRoom + 1.
Proof.
  apply (getOrCreateAdminRoom_empty_user Scenario.cfg "!n:example.org"
           (Scenario.joinedBy [botUserId Scenario.cfg]) Scenario.afterAliceRoom).
  - simpl. intuition discriminate.
  - reflexivity.
  - reflexivity.
  - simpl. lia.
Defined.

(** X12. When the transport fails on the creating path, at [createRoom] or at
    [getJoinedMembers], the call rejects with the transport's error; the
    directory is as it was and no text was sent. A failed [createRoom] is
    followed by no request for members. *)
Theorem getOrCreateAdminRoom_transport_failure cfg userId e st :
  findByOwner st userId = None ->
  (forall joined,
     getOrCreateAdminRoom cfg userId (Rejected e) joined st
       = (Rejected e, logCall (CreateRoom (adminRoomOptions userId)) st)) /\
  (forall newRoomId,
     exists st',
       getOrCreateAdminRoom cfg userId (Resolved newRoomId) (Rejected e) st
         = (Rejected e, st') /\
       _adminRooms st' = _adminRooms st /\
       textsSent st' = textsSent st /\
       transportLog st' =
         transportLog st ++ [CreateRoom (adminRoomOptions userId);
                             GetJoinedMembers newRoomId]).
Proof.
  intros Hfind. unfold getOrCreateAdminRoom. rewrite Hfind. split.
  - reflexivity.
  - intros newRoomId. simpl. eexists. split; [reflexivity|].
    repeat split.
    + rewrite !textsSent_logCall. simpl. lia.
    + simpl. now rewrite <- app_assoc.
Qed.

Lemma getOrCreateAdminRoom_transport_failure_witness :
  getOrCreateAdminRoom Scenario.cfg Scenario.bob (Rejected (TransportError "down"))
    (Resolved Startup.group) Scenario.afterAliceRoom
  = (Rejected (TransportError "down"),
     logCall (CreateRoom (adminRoomOptions Scenario.bob)) Scenario.afterAliceRoom).
Proof.
  apply (proj1 (getOrCreateAdminRoom_transport_failure Scenario.cfg Scenario.bob
                  (TransportError "down") Scenario.afterAliceRoom eq_refl)).
Defined.

(** ** The first admin room of an owner stays the answer *)

Lemma orderNames_snoc (ks : list string) (k : string) :
  JsObj.arrayIndex k = None ->
  JsObj.orderNames (ks ++ [k]) = JsObj.orderNames ks ++ [k].
Proof.
  intros Hk. unfold JsObj.orderNames.
  assert (Hi : JsObj.indexNames (ks ++ [k]) = JsObj.indexNames ks).
  { induction ks as [|x ks IH]; simpl; [now rewrite Hk|].
    now rewrite IH. }
  assert (Ho : JsObj.otherNames (ks ++ [k]) = JsObj.otherNames ks ++ [k]).
  { clear Hi. induction ks as [|x ks IH]; simpl; [now rewrite Hk|].
    destruct (JsObj.arrayIndex x); [exact IH | now rewrite IH]. }
  now rewrite Hi, Ho, app_assoc.
Qed.

Lemma scanOwner_app rooms (ids more : list string) userId :
  scanOwner rooms (ids ++ more) userId =
    match scanOwner rooms ids userId with
    | Some room => Some room
    | None => scanOwner rooms more userId
    end.
Proof.
  induction ids as [|k ids IH]; simpl; [reflexivity|].
  destruct (JsObj.get rooms k) as [r|]; [|exact IH].
  destruct (AdminRoom.owner r) as [o|]; [|exact IH].
  now destruct (String.eqb o userId).
Qed.

Lemma scanOwner_ext rooms rooms' (ids : list string) userId :
  (forall k, In k ids -> JsObj.get rooms' k = JsObj.get rooms k) ->
  scanOwner rooms' ids userId = scanOwner rooms ids userId.
Proof.
  induction ids as [|k ids IH]; intros H; simpl; [reflexivity|].
  rewrite (H k (or_introl eq_refl)).
  rewrite IH by (intros x Hx; apply H; now right).
  reflexivity.
Qed.

(** X7. Registering a room that was not in the directory does not change the
    admin room a user already resolves to, whoever the new room's owner
    is: the owner scan meets the older room first. Room ids begin with
    ["!"] and so are no array indices. *)
Theorem findByOwner_stable cfg roomId adminRoomOwner newRoom joined st userId room :
  findByOwner st userId = Some room ->
  JsObj.get (_adminRooms st) roomId = None ->
  JsObj.arrayIndex roomId = None ->
  findByOwner (snd (_processRoom cfg roomId adminRoomOwner newRoom joined st)) userId
  = Some room.
Proof.
  intros Hfind Hnone Hidx. unfold findByOwner in *.
  rewrite adminRooms_processRoom_any.
  destruct joined as [members|e]; [|exact Hfind].
  destruct (registersAdminRoom (JsObj.keys members) adminRoomOwner); [|exact Hfind].
  unfold JsObj.keys. rewrite JsObjFacts.names_set, Hnone.
  rewrite orderNames_snoc by exact Hidx.
  rewrite scanOwner_app.
  rewrite (scanOwner_ext (_adminRooms st)).
  - unfold JsObj.keys in Hfind. now rewrite Hfind.
  - intros k Hk. apply JsObjFacts.get_set_other. intros ->.
    apply (Permutation_in _ (JsObjFacts.orderNames_perm _)) in Hk.
    destruct (JsObjFacts.in_get_some _ _ Hk) as [v Hv]. congruence.
Qed.

Lemma findByOwner_stable_witness :
  findByOwner Scenario.afterSecondAliceRoom Scenario.alice
  = Some (AdminRoom.make "!a:example.org" (Some Scenario.alice)).
Proof.
  apply (findByOwner_stable Scenario.cfg "!b:example.org" None false
           (Resolved Scenario.aliceAndBot) Scenario.afterAliceRoom Scenario.alice
           (AdminRoom.make "!a:example.org" (Some Scenario.alice)));
    reflexivity.
Defined.

(** ** The startup scan *)

Lemma members_requests_only (rooms : list string) :
  filter isSendText (map GetJoinedMembers rooms) = [] /\
  filter isCreateRoom (map GetJoinedMembers rooms) = [].
Proof. induction rooms as [|r rooms [IH1 IH2]]; simpl; auto. Qed.

(** X15. The startup scan asks for the members of each joined room, once and in
    the order of the rooms, and makes no other call: no text is sent and
    no room is created, whatever the members are and in whatever order the
    answers arrive. *)
Theorem bridgeKnownRooms_only_fetches_members cfg rooms answers st :
  transportLog (_bridgeKnownRooms cfg (Resolved rooms) answers st)
    = transportLog st ++ map GetJoinedMembers rooms /\
  textsSent (_bridgeKnownRooms cfg (Resolved rooms) answers st) = textsSent st /\
  roomsCreated (_bridgeKnownRooms cfg (Resolved rooms) answers st) = roomsCreated st.
Proof.
  assert (Hlog : transportLog (_bridgeKnownRooms cfg (Resolved rooms) answers st)
                 = transportLog st ++ map GetJoinedMembers rooms).
  { simpl. now rewrite transportLog_processRoomAnswers, transportLog_joinedRooms. }
  split; [exact Hlog|].
  unfold textsSent, roomsCreated. rewrite Hlog, !filter_app, !length_app.
  rewrite (proj1 (members_requests_only rooms)), (proj2 (members_requests_only rooms)).
  simpl. lia.
Qed.

Lemma get_in_entry {V} (o : JsObj.t V) k v :
  JsObj.get o k = Some v -> In (k, v) o.
Proof.
  induction o as [|[k0 v0] o IH]; simpl; [discriminate|].
  destruct (String.eqb_spec k0 k) as [->|_].
  - intros [= ->]. now left.
  - intros H. right. auto.
Qed.

Lemma get_permutation {V} (o o' : JsObj.t V) k :
  JsObj.wf o -> Permutation o o' -> JsObj.get o k = JsObj.get o' k.
Proof.
  intros Hwf Hperm.
  assert (Hwf' : JsObj.wf o').
  { unfold JsObj.wf, JsObj.names in *.
    eapply Permutation_NoDup; [apply Permutation_map; exact Hperm | exact Hwf]. }
  destruct (JsObj.get o k) as [v|] eqn:E.
  - symmetry. apply get_of_entry; [exact Hwf'|].
    eapply Permutation_in; [exact Hperm | now apply get_in_entry].
  - destruct (JsObj.get o' k) as [v'|] eqn:E'; [|reflexivity].
    apply get_in_entry in E'.
    apply (Permutation_in _ (Permutation_sym Hperm)) in E'.
    apply (get_of_entry _ _ _ Hwf) in E'. congruence.
Qed.

Lemma get_processRoomAnswers cfg (answers : list (string * Members)) : forall st k,
  JsObj.wf answers ->
  JsObj.get (_adminRooms (processRoomAnswers cfg answers st)) k =
    match JsObj.get answers k with
    | Some members =>
        if registersAdminRoom (JsObj.keys members) None
        then Some (AdminRoom.make k (registeredOwner cfg (JsObj.keys members) None))
        else JsObj.get (_adminRooms st) k
    | None => JsObj.get (_adminRooms st) k
    end.
Proof.
  unfold processRoomAnswers.
  induction answers as [|[r m] answers IH]; intros st k Hwf; simpl; [reflexivity|].
  unfold JsObj.wf in Hwf. simpl in Hwf. inversion Hwf as [|? ? Hnotin Hwf']; subst.
  rewrite IH by exact Hwf'. rewrite processRoomMembers_adminRooms.
  destruct (String.eqb_spec r k) as [->|Hrk].
  - destruct (JsObj.get answers k) as [m'|] eqn:E.
    + elim Hnotin. eapply JsObjFacts.get_some_in; eauto.
    + destruct (registersAdminRoom (JsObj.keys m) None); [|reflexivity].
      apply JsObjFacts.get_set_same.
  - assert (Hframe :
      JsObj.get (if registersAdminRoom (JsObj.keys m) None
                 then JsObj.set (_adminRooms st) r
                        (AdminRoom.make r (registeredOwner cfg (JsObj.keys m) None))
                 else _adminRooms st) k = JsObj.get (_adminRooms st) k).
    { destruct (registersAdminRoom (JsObj.keys m) None); [|reflexivity].
      apply JsObjFacts.get_set_other. congruence. }
    now rewrite Hframe.
Qed.

(** X16. After the startup scan, each room whose members were fetched and
    number exactly two is registered with the owner picked among them; the
    entry of every other room is as it was. Each room is answered once,
    and none of the rooms answered has the id ["__proto__"]. *)
Theorem bridgeKnownRooms_registers cfg rooms (answers : list (string * Members)) st k :
  ~ In "__proto__" (JsObj.names answers) ->
  JsObj.wf answers ->
  JsObj.get (_adminRooms (_bridgeKnownRooms cfg (Resolved rooms) answers st)) k =
    match JsObj.get answers k with
    | Some members =>
        if (List.length (JsObj.keys members) =? 2)%nat
        then Some (AdminRoom.make k (registeredOwner cfg (JsObj.keys members) None))
        else JsObj.get (_adminRooms st) k
    | None => JsObj.get (_adminRooms st) k
    end.
Proof.
  intros _ Hwf. simpl. rewrite get_processRoomAnswers by exact Hwf.
  rewrite adminRooms_joinedRooms.
  destruct (JsObj.get answers k) as [m|]; [|reflexivity].
  unfold registersAdminRoom. simpl. now rewrite orb_false_r.
Qed.

Lemma bridgeKnownRooms_registers_witness :
  JsObj.get (_adminRooms Startup.scanned) "!b:example.org"
  = Some (AdminRoom.make "!b:example.org" (Some Scenario.bob)).
Proof.
  apply (bridgeKnownRooms_registers Scenario.cfg Startup.rooms Startup.answers
           newBridge "!b:example.org").
  - simpl. intuition discriminate.
  - unfold JsObj.wf. simpl. solve_nodup.
Defined.

(** X17. The admin room found under a room id after the startup scan does not
    depend on the order in which the answers of the transport arrive. *)
Theorem bridgeKnownRooms_order_independent
    cfg rooms (answers answers' : list (string * Members)) st k :
  JsObj.wf answers ->
  Permutation answers answers' ->
  JsObj.get (_adminRooms (_bridgeKnownRooms cfg (Resolved rooms) answers st)) k
  = JsObj.get (_adminRooms (_bridgeKnownRooms cfg (Resolved rooms) answers' st)) k.
Proof.
  intros Hwf Hperm.
  assert (Hwf' : JsObj.wf answers').
  { unfold JsObj.wf, JsObj.names in *.
    eapply Permutation_NoDup; [apply Permutation_map; exact Hperm | exact Hwf]. }
  simpl. rewrite !get_processRoomAnswers by assumption.
  now rewrite (get_permutation answers answers' k Hwf Hperm).
Qed.

Lemma bridgeKnownRooms_order_independent_witness :
  JsObj.get (_adminRooms Startup.scanned) "!a:example.org"
  = JsObj.get
      (_adminRooms
         (_bridgeKnownRooms Scenario.cfg (Resolved Startup.rooms)
            Startup.answersInOrder newBridge))
      "!a:example.org".
Proof.
  apply (bridgeKnownRooms_order_independent Scenario.cfg Startup.rooms
           Startup.answers Startup.answersInOrder newBridge "!a:example.org").
  - unfold JsObj.wf. simpl. solve_nodup.
  - unfold Startup.answers, Startup.answersInOrder.
    apply Permutation_sym, Permutation_rev.
Defined.

(** ** Dispatch of events *)

Lemma onOtherEvent_cases cfg event st :
  onOtherEvent cfg event st =
    Normal (if String.eqb (type event) "m.room.message"
               && negb (String.eqb (sender event) (botUserId cfg))
            then ProcessMessage else NothingToDo, st).
Proof.
  unfold onOtherEvent.
  now destruct (String.eqb (type event) "m.room.message"
                && negb (String.eqb (sender event) (botUserId cfg))).
Qed.

(** The three ways [_onEvent] returns, after the admin room of the event's
    room has handled the event and left the bridge [st1]. *)
Lemma onEvent_cases cfg handleEvent event st h st' :
  _onEvent cfg handleEvent event st = Normal (h, st') ->
  exists st1,
    _tryProcessAdminEvent handleEvent event st = Normal st1 /\
    ((h = JoinThenProcessRoom (state_key event) (room_id event) /\
      st' = logCall (Join (state_key event) (room_id event)) st1 /\
      type event = "m.room.member" /\
      (exists c, content event = Some c /\ membership c = JsStr "invite") /\
      isBridgeUser cfg (state_key event) = Normal true)
     \/
     (st' = st1 /\
      h = if String.eqb (type event) "m.room.message"
             && negb (String.eqb (sender event) (botUserId cfg))
          then ProcessMessage else NothingToDo)).
Proof.
  unfold _onEvent.
  destruct (_tryProcessAdminEvent handleEvent event st) as [st1|e]; [|discriminate].
  intros H. exists st1. split; [reflexivity|].
  assert (Hother : onOtherEvent cfg event st1 = Normal (h, st') ->
    st' = st1 /\
    h = if String.eqb (type event) "m.room.message"
           && negb (String.eqb (sender event) (botUserId cfg))
        then ProcessMessage else NothingToDo).
  { rewrite onOtherEvent_cases. now intros [= <- <-]. }
  destruct (String.eqb_spec (type event) "m.room.member") as [Hty|_]; [|right; auto].
  destruct (content event) as [c|] eqn:Hc; [|discriminate].
  destruct (membership c) as [| |m] eqn:Hm; simpl in H; try (right; auto; fail).
  destruct (String.eqb_spec m "invite") as [->|_]; [|right; auto].
  destruct (isBridgeUser cfg (state_key event)) as [[|]|e] eqn:Hb;
    [|right; auto|discriminate].
  injection H as <- <-. left. repeat split; auto. now exists c.
Qed.



(** X19. An event is passed on to [_processMessage] exactly when it is a
    message whose sender is not the bot: the bot's own messages are never
    relayed, and relaying changes nothing in the bridge. *)
Theorem onEvent_relays_messages cfg handleEvent event st h st' :
  _onEvent cfg handleEvent event st = Normal (h, st') ->
  (h = ProcessMessage <->
   type event = "m.room.message" /\ sender event <> botUserId cfg) /\
  (h = ProcessMessage ->
   _tryProcessAdminEvent handleEvent event st = Normal st').
Proof.
  intros H. destruct (onEvent_cases _ _ _ _ _ _ H) as (st1 & Hadmin & [Hjoin|[Hst Hh]]).
  - destruct Hjoin as (-> & _ & Hty & _). split; [|discriminate].
    split; [discriminate|]. intros [Hmsg _]. rewrite Hty in Hmsg. discriminate Hmsg.
  - subst st'. split; [|now intros _].
    rewrite Hh.
    destruct (String.eqb_spec (type event) "m.room.message") as [Hty|Hty];
      destruct (String.eqb_spec (sender event) (botUserId cfg)) as [Hs|Hs]; simpl;
      split; try discriminate; try tauto; intros [? ?]; contradiction.
Qed.

Lemma onEvent_relays_messages_witness :
  ProcessMessage = ProcessMessage <->
  type (Startup.message Scenario.alice) = "m.room.message" /\
  sender (Startup.message Scenario.alice) <> botUserId Scenario.cfg.
Proof.
  apply (onEvent_relays_messages Scenario.cfg Scenario.quietHandleEvent
           (Startup.message Scenario.alice) Scenario.afterAliceRoom
           ProcessMessage Scenario.afterAliceRoom).
  reflexivity.
Defined.

(** X20. An event of a room that has no admin room never reaches
    [AdminRoom.handleEvent]: whatever that method would do, [_onEvent]
    leaves the directory as it was and at most notes the join it starts. *)
Theorem onEvent_without_admin_room cfg handleEvent event st :
  JsObj.get (_adminRooms st) (room_id event) = None ->
  (forall handleEvent',
     _onEvent cfg handleEvent' event st = _onEvent cfg handleEvent event st) /\
  (forall h st',
     _onEvent cfg handleEvent event st = Normal (h, st') ->
     _adminRooms st' = _adminRooms st /\
     transportLog st' =
       transportLog st ++
         match h with
         | JoinThenProcessRoom u r => [Join u r]
         | _ => []
         end).
Proof.
  intros Hnone. split.
  - intros handleEvent'. unfold _onEvent, _tryProcessAdminEvent. now rewrite Hnone.
  - intros h st' H.
    destruct (onEvent_cases _ _ _ _ _ _ H) as (st1 & Hadmin & Hcases).
    unfold _tryProcessAdminEvent in Hadmin. rewrite Hnone in Hadmin.
    injection Hadmin as <-.
    destruct Hcases as [(-> & -> & _)|[-> ->]]; [now split|].
    split; [reflexivity|].
    destruct (String.eqb (type event) "m.room.message"
              && negb (String.eqb (sender event) (botUserId cfg)));
      now rewrite app_nil_r.
Qed.

Lemma onEvent_without_admin_room_witness :
  _onEvent Scenario.cfg (fun _ _ _ => Throw TypeError)
    (Scenario.invite (JsStr Scenario.sms) "!dm:example.org") Scenario.afterAliceRoom
  = _onEvent Scenario.cfg Scenario.quietHandleEvent
      (Scenario.invite (JsStr Scenario.sms) "!dm:example.org") Scenario.afterAliceRoom.
Proof.
  apply (proj1
    (onEvent_without_admin_room Scenario.cfg Scenario.quietHandleEvent
       (Scenario.invite (JsStr Scenario.sms) "!dm:example.org")
       Scenario.afterAliceRoom eq_refl)).
Defined.

(** X21. Once an invited user has joined a room that then has exactly two
    joined members, the promise of [_onEvent] resolves, the room is an
    admin room and exactly one text, the welcome notice, went to that
    room, after its members were fetched. *)
Theorem joinThenProcessRoom_welcomes_once cfg roomId (members : Members) st :
  List.length (JsObj.keys members) = 2 ->
  exists st',
    joinThenProcessRoom cfg roomId (Resolved tt) (Resolved members) st
      = (Resolved tt, st') /\
    JsObj.get (_adminRooms st') roomId
      = Some (AdminRoom.make roomId (registeredOwner cfg (JsObj.keys members) None)) /\
    transportLog st' =
      transportLog st ++ [GetJoinedMembers roomId; SendText roomId welcomeText].
Proof.
  intros Hlen.
  assert (Hadmin : registersAdminRoom (JsObj.keys members) None = true)
    by (unfold registersAdminRoom; now rewrite Hlen).
  eexists. split; [reflexivity|]. split.
  - rewrite processRoomMembers_adminRooms, Hadmin. apply JsObjFacts.get_set_same.
  - rewrite processRoomMembers_transportLog, Hadmin. simpl.
    now rewrite <- app_assoc.
Qed.

Lemma joinThenProcessRoom_welcomes_once_witness :
  exists st',
    joinThenProcessRoom Scenario.cfg "!dm:example.org" (Resolved tt)
      (Resolved Scenario.aliceAndSms) newBridge
      = (Resolved tt, st') /\
    JsObj.get (_adminRooms st') "!dm:example.org"
      = Some (AdminRoom.make "!dm:example.org"
                (registeredOwner Scenario.cfg (JsObj.keys Scenario.aliceAndSms) None)) /\
    transportLog st' =
      transportLog newBridge ++
        [GetJoinedMembers "!dm:example.org"; SendText "!dm:example.org" welcomeText].
Proof.
  apply (joinThenProcessRoom_welcomes_once Scenario.cfg "!dm:example.org"
           Scenario.aliceAndSms newBridge).
  reflexivity.
Defined.

(** ** Virtual users and phone numbers *)

Lemma append_cancel_r (x y t : string) :
  (x ++ t)%string = (y ++ t)%string -> x = y.
Proof.
  revert y. induction x as [|c x IH]; intros [|d y] H; simpl in H.
  - reflexivity.
  - apply (f_equal String.length) in H. simpl in H.
    rewrite JsStringFacts.length_append in H. lia.
  - apply (f_equal String.length) in H. simpl in H.
    rewrite JsStringFacts.length_append in H. lia.
  - injection H as -> H. f_equal. now apply IH.
Qed.

(** X22. Two phone numbers with the same virtual user are the same number, and
    the number can be read back from the user's name. *)
Theorem getSmsIntent_injective cfg (phoneNumber phoneNumber' : string) :
  getSmsIntent cfg phoneNumber = getSmsIntent cfg phoneNumber' ->
  phoneNumber = phoneNumber'.
Proof.
  unfold getSmsIntent, getIntentFromLocalpart. simpl. intros H.
  injection H as H. now apply append_cancel_r in H.
Qed.

Lemma getSmsIntent_injective_witness : "15551234567" = "15551234567".
Proof.
  apply (getSmsIntent_injective Scenario.cfg "15551234567" "15551234567").
  reflexivity.
Defined.

(** ** The bot's profile *)

Lemma orDefault_nonempty (v : option string) (d : string) :
  d <> "" -> orDefault v d <> "" /\ (v = Some (orDefault v d) \/ orDefault v d = d).
Proof.
  intros Hd. unfold orDefault. destruct v as [s|]; [|auto].
  destruct (String.eqb_spec s "") as [->|Hs]; auto.
Qed.

Lemma avatarOutdated_saved app :
  avatarOutdated app (BotProfile.make (Some (desiredAvatarUrl app))) = false.
Proof.
  unfold avatarOutdated. simpl. rewrite String.eqb_refl.
  destruct (orDefault_nonempty (Appearance.avatarUrl app)
    "https://t2bot.io/_matrix/media/v1/download/t2l.io/SOZlqpJCUoecxNFZGGnDEhEy")
    as [Hne _]; [discriminate|].
  fold (desiredAvatarUrl app) in Hne. apply String.eqb_neq in Hne.
  now rewrite Hne.
Qed.

Lemma filter_profile_calls app displayname :
  filter changesAvatar (_updateBotProfile_profile app displayname) = [].
Proof.
  unfold _updateBotProfile_profile.
  now destruct (negb (looseEq (desiredDisplayName app) displayname)).
Qed.

(** X23. The avatar is uploaded once: a run that reads the account data written
    by an earlier run uploads nothing, sets no avatar and writes nothing
    to the store, whatever the configuration, also when it names no avatar
    or an empty one. *)
Theorem updateBotProfile_avatar_once
    cfg app botProfile mxcUrl profile saved uploaded' profile' :
  In (SetAccountData "bridge" saved)
     (_updateBotProfile cfg app (Resolved botProfile) (Resolved mxcUrl) profile) ->
  filter changesAvatar
    (_updateBotProfile cfg app (Resolved saved) uploaded' profile') = [].
Proof.
  intros Hin.
  assert (Hsaved : saved = BotProfile.make (Some (desiredAvatarUrl app))).
  { unfold _updateBotProfile, _updateBotProfile_accountData,
      _updateBotProfile_uploaded, _updateBotProfile_profile in Hin.
    destruct Hin as [H|Hin]; [discriminate H|].
    repeat (apply in_app_or in Hin as [Hin|Hin]).
    - destruct (avatarOutdated app botProfile); simpl in Hin;
        intuition discriminate.
    - simpl in Hin. intuition discriminate.
    - destruct (avatarOutdated app botProfile); simpl in Hin;
        [|contradiction].
      destruct Hin as [H|[H|[]]]; [discriminate H|]. now injection H as <-.
    - destruct profile as [v|e]; simpl in Hin; [|contradiction].
      destruct (negb (looseEq (desiredDisplayName app) v)); simpl in Hin;
        intuition discriminate. }
  subst saved. unfold _updateBotProfile, _updateBotProfile_accountData.
  rewrite avatarOutdated_saved. simpl.
  destruct profile' as [v|e]; [apply filter_profile_calls | reflexivity].
Qed.

Lemma updateBotProfile_avatar_once_witness :
  filter changesAvatar
    (_updateBotProfile Scenario.cfg Startup.appearance
       (Resolved (BotProfile.make (Some "mxc-source://avatar")))
       (Rejected (TransportError "down")) (Resolved JsUndefined)) = [].
Proof.
  apply (updateBotProfile_avatar_once Scenario.cfg Startup.appearance
           (BotProfile.make None) "mxc://example.org/avatar" (Resolved JsNull)
           (BotProfile.make (Some "mxc-source://avatar"))
           (Rejected (TransportError "down")) (Resolved JsUndefined)).
  simpl. auto 10.
Defined.

(** X24. The store is written only after an upload that succeeded, and with
    the avatar that was asked for: a failed upload leaves the account data
    as it was, so that the next start tries again. *)
Theorem updateBotProfile_saves_after_upload
    cfg app accountData uploaded profile key data :
  In (SetAccountData key data)
     (_updateBotProfile cfg app accountData uploaded profile) ->
  key = "bridge" /\
  BotProfile.avatarUrl data = Some (desiredAvatarUrl app) /\
  exists botProfile mxcUrl,
    accountData = Resolved botProfile /\ uploaded = Resolved mxcUrl /\
    BotProfile.avatarUrl botProfile <> Some (desiredAvatarUrl app) /\
    In (UploadContentFromUrl (desiredAvatarUrl app))
       (_updateBotProfile cfg app accountData uploaded profile) /\
    In (SetAvatarUrl mxcUrl)
       (_updateBotProfile cfg app accountData uploaded profile).
Proof.
  unfold _updateBotProfile, _updateBotProfile_accountData,
    _updateBotProfile_uploaded, _updateBotProfile_profile.
  intros [H|Hin]; [discriminate H|].
  destruct accountData as [botProfile|e]; [|destruct Hin].
  destruct (avatarOutdated app botProfile) eqn:Hout.
  - destruct uploaded as [mxcUrl|e].
    + simpl in Hin. destruct Hin as [H|[H|[H|[H|Hin]]]]; try discriminate H.
      * injection H as <- <-. repeat split.
        exists botProfile, mxcUrl. repeat split.
        -- intros E. unfold avatarOutdated in Hout. rewrite E in Hout.
           simpl in Hout. rewrite String.eqb_refl in Hout.
           destruct (orDefault_nonempty (Appearance.avatarUrl app)
             "https://t2bot.io/_matrix/media/v1/download/t2l.io/SOZlqpJCUoecxNFZGGnDEhEy")
             as [Hne _]; [discriminate|].
           fold (desiredAvatarUrl app) in Hne. apply String.eqb_neq in Hne.
           rewrite Hne in Hout. discriminate Hout.
        -- simpl. auto.
        -- simpl. auto.
      * destruct profile as [v|e]; [|destruct Hin].
        destruct (negb (looseEq (desiredDisplayName app) v)); simpl in Hin;
          intuition discriminate.
    + simpl in Hin. destruct Hin as [H|[H|Hin]]; try discriminate H.
      destruct profile as [v|e']; [|destruct Hin].
      destruct (negb (looseEq (desiredDisplayName app) v)); simpl in Hin;
        intuition discriminate.
  - simpl in Hin. destruct Hin as [H|Hin]; [discriminate H|].
    destruct profile as [v|e]; [|destruct Hin].
    destruct (negb (looseEq (desiredDisplayName app) v)); simpl in Hin;
      intuition discriminate.
Qed.

Lemma updateBotProfile_saves_after_upload_witness :
  BotProfile.avatarUrl (BotProfile.make (Some "mxc-source://avatar"))
  = Some (desiredAvatarUrl Startup.appearance).
Proof.
  apply (updateBotProfile_saves_after_upload Scenario.cfg Startup.appearance
           (Resolved (BotProfile.make None)) (Resolved "mxc://example.org/avatar")
           (Resolved JsNull) "bridge" (BotProfile.make (Some "mxc-source://avatar"))).
  simpl. auto 10.
Defined.

(** X25. The display name is set only when the bot's current name differs from
    the wanted one, and the name set is never empty: it is the configured
    name or, when that is missing or empty, ["SMS Bridge"]. *)
Theorem updateBotProfile_display_name
    cfg app accountData uploaded profile name :
  In (SetDisplayName name)
     (_updateBotProfile cfg app accountData uploaded profile) ->
  name <> "" /\
  (Appearance.displayName app = Some name \/ name = "SMS Bridge") /\
  exists current, profile = Resolved current /\ current <> JsStr name.
Proof.
  unfold _updateBotProfile, _updateBotProfile_accountData,
    _updateBotProfile_uploaded, _updateBotProfile_profile.
  intros [H|Hin]; [discriminate H|].
  destruct accountData as [botProfile|e]; [|destruct Hin].
  assert (Hprofile :
    In (SetDisplayName name)
       match profile with
       | Resolved displayname =>
           if negb (looseEq (desiredDisplayName app) displayname)
           then [SetDisplayName (desiredDisplayName app)] else []
       | Rejected _ => []
       end).
  { repeat (apply in_app_or in Hin as [Hin|Hin]); auto.
    - destruct (avatarOutdated app botProfile); simpl in Hin; intuition discriminate.
    - simpl in Hin. intuition discriminate.
    - destruct (avatarOutdated app botProfile); [|destruct Hin].
      destruct uploaded; simpl in Hin; intuition discriminate. }
  destruct profile as [current|e]; [|destruct Hprofile].
  destruct (looseEq (desiredDisplayName app) current) eqn:Heq; simpl in Hprofile;
    [destruct Hprofile|].
  destruct Hprofile as [H|[]]. injection H as <-.
  destruct (orDefault_nonempty (Appearance.displayName app) "SMS Bridge")
    as [Hne Hor]; [discriminate|].
  fold (desiredDisplayName app) in Hne, Hor.
  repeat split; auto.
  exists current. split; [reflexivity|].
  intros ->. simpl in Heq. rewrite String.eqb_refl in Heq. discriminate Heq.
Qed.

Lemma updateBotProfile_display_name_witness :
  "SMS Bridge" <> "" /\
  (Appearance.displayName Startup.appearance = Some "SMS Bridge"
   \/ "SMS Bridge" = "SMS Bridge") /\
  exists current, Resolved (JsStr "Bridge") = Resolved current /\
                  current <> JsStr "SMS Bridge".
Proof.
  apply (updateBotProfile_display_name Scenario.cfg Startup.appearance
           (Resolved (BotProfile.make None)) (Rejected (TransportError "down"))
           (Resolved (JsStr "Bridge")) "SMS Bridge").
  simpl. auto 10.
Defined.

(** ** The owner scan, both ways *)

(** X6. The owner scan of [getOrCreateAdminRoom] misses exactly when no entry
    of the directory belongs to the user, and what it finds is an entry of
    the directory that belongs to the user. *)
Theorem findByOwner_sound_complete st userId :
  (findByOwner st userId = None <->
   forall k room, JsObj.get (_adminRooms st) k = Some room ->
                  AdminRoom.owner room <> Some userId) /\
  (forall room, findByOwner st userId = Some room ->
     AdminRoom.owner room = Some userId /\
     exists k, JsObj.get (_adminRooms st) k = Some room).
Proof.
  split; [split|].
  - intros Hnone k room Hget Hown. exact (findByOwner_none st userId Hnone k room Hget Hown).
  - intros Hno. destruct (findByOwner st userId) as [room|] eqn:E; [|reflexivity].
    destruct (findByOwner_some _ _ _ E) as (k & Hk & Hown).
    elim (Hno k room Hk Hown).
  - intros room E. destruct (findByOwner_some _ _ _ E) as (k & Hk & Hown).
    split; [exact Hown | now exists k].
Qed.

(** ** A forced owner on a room just created *)

(** X4. When nobody but the bot and the user has joined the room, as right
    after the bot created it for the user, [_processRoom] with that user
    as forced owner registers the room for that user. *)
Theorem processRoom_forced_owner_of_own_room
    cfg roomId userId newRoom (members : Members) st :
  userId <> "" ->
  JsObj.wf members ->
  (forall id, In id (JsObj.keys members) -> id = botUserId cfg \/ id = userId) ->
  JsObj.get
    (_adminRooms
       (snd (_processRoom cfg roomId (Some userId) newRoom (Resolved members) st)))
    roomId
  = Some (AdminRoom.make roomId (Some userId)).
Proof.
  intros Hne Hwf Honly.
  rewrite processRoom_forced_registers by exact Hne.
  rewrite registeredOwner_forced; auto using JsObjFacts.keys_nodup.
Qed.

Lemma processRoom_forced_owner_of_own_room_witness :
  JsObj.get
    (_adminRooms
       (snd (_processRoom Scenario.cfg "!n:example.org" (Some Scenario.bob) false
               (Resolved Startup.bobAndBot) Scenario.afterAliceRoom)))
    "!n:example.org"
  = Some (AdminRoom.make "!n:example.org" (Some Scenario.bob)).
Proof.
  apply (processRoom_forced_owner_of_own_room Scenario.cfg "!n:example.org"
           Scenario.bob false Startup.bobAndBot Scenario.afterAliceRoom).
  - discriminate.
  - unfold JsObj.wf. simpl. solve_nodup.
  - simpl. intros id [<-|[<-|[]]]; auto.
Defined.

Lemma calls_in_one_turn_both_create_witness :
  roomsCreated
    (snd (getOrCreateAdminRoom_call Scenario.bob
            (snd (getOrCreateAdminRoom_call Scenario.bob Scenario.afterAliceRoom))))
  = roomsCreated Scenario.afterAliceRoom + 2.
Proof.
  apply (calls_in_one_turn_both_create Scenario.bob Scenario.afterAliceRoom).
  reflexivity.
Defined.
